(** * arduino-cli: board resolution, tool selection, build pipeline, text search

    A shallow embedding of
    - [arduino/utils/search.go]             (package [utils]),
    - the package manager                   (package [packagemanager]),
    - [legacy/builder/builder.go]           (package [builder]),
    with the properties their specification states about them.

    Go maps are [gmap]s, Go pointers that may be [nil] are [option]s, a Go
    function returning several values returns a record or a tuple, and
    a Go [error] is an [option] of an error value ([None] is [nil]). *)

From Stdlib Require Import Ascii String.
From stdpp Require Import gmap strings list fin_maps.

Set Default Proof Using "Type".
Open Scope string_scope.
Open Scope list_scope.

(** ** Part I: the model *)

(** *** The functions of Go's package [strings] that the code calls *)
Module gostrings.

(** [strings.HasPrefix(s, prefix)]. *)
Fixpoint HasPrefix (s prefix : string) {struct prefix} : bool :=
  match prefix, s with
  | EmptyString, _ => true
  | String _ _, EmptyString => false
  | String c prefix', String d s' => Ascii.eqb c d && HasPrefix s' prefix'
  end.

(** [strings.Contains(s, substr)]: [substr] occurs in [s] at some offset
    (the empty string occurs in every string). *)
Fixpoint Contains (s substr : string) : bool :=
  HasPrefix s substr ||
  match s with
  | EmptyString => false
  | String _ s' => Contains s' substr
  end.

(** [strings.Split(s, sep)] for a separator of one byte: the pieces of
    [s] between the occurrences of [sep]; [n] occurrences give [n + 1]
    pieces, and a string without the separator is returned whole. *)
Fixpoint Split (s : string) (sep : ascii) : list string :=
  match s with
  | EmptyString => [EmptyString]
  | String c s' =>
      if Ascii.eqb c sep then EmptyString :: Split s' sep
      else match Split s' sep with
           | [] => [String c EmptyString]
           | piece :: pieces => String c piece :: pieces
           end
  end.

(** Number of occurrences of the byte [sep] in [s]. *)
Fixpoint Count (s : string) (sep : ascii) : nat :=
  match s with
  | EmptyString => 0
  | String c s' => (if Ascii.eqb c sep then 1 else 0) + Count s' sep
  end.

End gostrings.

(** *** Package [utils]: [arduino/utils/search.go] *)
Module utils.

(** The text transformations come from Go's [strings] and from
    [golang.org/x/text]: Unicode lower-casing and the three transformers
    that [removeDiatrics] chains.  Their tables are not part of the
    program; they are parameters of the model.  A transformer maps a
    string to a string and an error. *)
Class Text := {
  error : Type;
  ToLower : string → string;
  NFD : string → string * option error;
  Remove_Mn : string → string * option error;
  NFC : string → string * option error;
}.

Section with_text.
Context `{Text}.

Definition Transformer : Type := string → string * option error.

(** [transform.Chain(t...)]: the transformers applied in order, the
    error of the first one that fails. *)
Fixpoint Chain (ts : list Transformer) : Transformer :=
  λ s,
    match ts with
    | [] => (s, None)
    | t :: ts' =>
        match t s with
        | (s', None) => Chain ts' s'
        | (s', Some err) => (s', Some err)
        end
    end.

(** [transform.String(t, s)], without the count of consumed bytes,
    which the caller drops. *)
Definition transform_String (t : Transformer) (s : string)
  : string * option error := t s.

Definition removeDiatrics (s : string) : string * option error :=
  let transformer := Chain [NFD; Remove_Mn; NFC] in
  match transform_String transformer s with
  | (_, Some err) => ("", Some err)
  | (s, None) => (s, None)
  end.

(** The loop of [Match] over [substrings]; [str] is already cleaned. *)
Fixpoint Match_range (str : string) (substrings : list string)
  : bool * option error :=
  match substrings with
  | [] => (true, None)
  | sub :: substrings' =>
      match removeDiatrics (ToLower sub) with
      | (_, Some err) => (false, Some err)
      | (cleanSub, None) =>
          if negb (gostrings.Contains str cleanSub) then (false, None)
          else Match_range str substrings'
      end
  end.

Definition Match (str : string) (substrings : list string)
  : bool * option error :=
  match removeDiatrics (ToLower str) with
  | (_, Some err) => (false, Some err)
  | (str, None) => Match_range str substrings
  end.

(** The cleaned form of a string, when cleaning reports no error. *)
Definition clean (s : string) : string := fst (removeDiatrics (ToLower s)).
Definition cleans (s : string) : Prop :=
  snd (removeDiatrics (ToLower s)) = None.

End with_text.

(** An instance for plain ASCII text: letters A-Z are lowered, and a
    string without combining marks is its own NFD and NFC form. *)
Definition ascii_lower (c : ascii) : ascii :=
  let n := nat_of_ascii c in
  if (65 <=? n)%nat && (n <=? 90)%nat then ascii_of_nat (n + 32) else c.

Fixpoint ascii_ToLower (s : string) : string :=
  match s with
  | EmptyString => EmptyString
  | String c s' => String (ascii_lower c) (ascii_ToLower s')
  end.

Definition ascii_text : Text :=
  {| error := string;
     ToLower := ascii_ToLower;
     NFD := λ s, (s, None);
     Remove_Mn := λ s, (s, None);
     NFC := λ s, (s, None) |}.

(** An instance in which a transformation can fail: here the
    normalization rejects a string that holds the byte 255. *)
Fixpoint has_byte_255 (s : string) : bool :=
  match s with
  | EmptyString => false
  | String c s' => Ascii.eqb c (ascii_of_nat 255) || has_byte_255 s'
  end.

Definition strict_text : Text :=
  {| error := string;
     ToLower := ascii_ToLower;
     NFD := λ s, if has_byte_255 s then (s, Some "invalid UTF-8") else (s, None);
     Remove_Mn := λ s, (s, None);
     NFC := λ s, (s, None) |}.

(** A string the strict instance rejects. *)
Definition not_utf8 : string := String (ascii_of_nat 255) "uno".

End utils.

(** *** Package [cores]: the data model of the package registry

    The declarations of package [cores] are not among the sources at hand;
    the types below follow section 3 of the specification and the fields
    the package manager reads.  A pointer from an entity back to its owner
    (a board to its platform release, a tool release to its tool) is kept
    as the data the code reads through it. *)
Module cores.

(** Modelled from the spec: the declaration of [cores.FQBN] is missing
    from the sources; an FQBN is
    [package:platformArch:boardId[:key=value,...]]. *)
Record FQBN := {
  FQBN_Package : string;
  FQBN_PlatformArch : string;
  FQBN_BoardID : string;
  FQBN_Configs : gmap string string;
}.

(** Modelled from the spec: the declaration of [cores.ToolDependency] is
    missing from the sources; a platform release declares a dependency as
    [(packager, toolName, version)]. *)
Record ToolDependency := {
  ToolName : string;
  ToolVersion : string;
  ToolPackager : string;
}.

(** Modelled from the spec: what the back pointer of a release to its
    [cores.Tool] gives access to, the name of the tool and the name of the
    package that owns it. *)
Record ToolRef := {
  ToolRef_Name : string;
  ToolRef_Package : string;
}.

(** Modelled from the spec: [Tool.String()] is missing from the sources;
    the mapping of the tool resolver is keyed by ["packager:toolName"]. *)
Definition Tool_String (tool : ToolRef) : string :=
  ToolRef_Package tool +:+ ":" +:+ ToolRef_Name tool.

(** Modelled from the spec: the declaration of [cores.ToolRelease] is
    missing from the sources; a release has a version, an installed or
    not-installed status, and a back-reference to its owning tool. *)
Record ToolRelease := {
  ToolRelease_Version : string;
  ToolRelease_Tool : ToolRef;
  ToolRelease_Installed : bool;
}.

(** Modelled from the spec: [ToolRelease.IsInstalled()] is missing from
    the sources; each release exposes an installed/not-installed status. *)
Definition IsInstalled (release : ToolRelease) : bool :=
  ToolRelease_Installed release.

(** Modelled from the spec: the declaration of [cores.Tool] is missing
    from the sources; a tool is a named program of a package and owns its
    releases, keyed by version string. *)
Record Tool := {
  Tool_Name : string;
  Tool_Package : string;
  Tool_Releases : gmap string ToolRelease;
}.

Definition Tool_ref (tool : Tool) : ToolRef :=
  {| ToolRef_Name := Tool_Name tool; ToolRef_Package := Tool_Package tool |}.

(** Modelled from the spec: [Tool.GetRelease(version)] is missing from the
    sources; a Tool owns its Releases, keyed by version string. *)
Definition GetRelease (tool : Tool) (version : string) : option ToolRelease :=
  Tool_Releases tool !! version.

(** Modelled from the spec: what a board reads through its back-reference
    to the platform release that owns it, the version of the release and
    the tool dependencies it declares. *)
Record PlatformReleaseRef := {
  PlatformReleaseRef_Version : string;
  PlatformReleaseRef_Dependencies : list ToolDependency;
}.

(** Modelled from the spec: the declaration of [cores.Board] is missing
    from the sources; a board has an id, its declared properties, and a
    back-reference to its owning platform release (a pointer, [nil] for a
    board that has none). *)
Record Board := {
  Board_BoardId : string;
  Board_Properties : gmap string string;
  Board_PlatformRelease : option PlatformReleaseRef;
}.

(** Modelled from the spec: the declaration of [cores.PlatformRelease]
    is missing from the sources; a release of a platform has a version,
    its declared tool dependencies, its boards keyed by board id, and the
    mark of the installed release. *)
Record PlatformRelease := {
  PlatformRelease_Version : string;
  PlatformRelease_Dependencies : list ToolDependency;
  PlatformRelease_Boards : gmap string Board;
  PlatformRelease_Installed : bool;
}.

Definition PlatformRelease_ref (release : PlatformRelease) : PlatformReleaseRef :=
  {| PlatformReleaseRef_Version := PlatformRelease_Version release;
     PlatformReleaseRef_Dependencies := PlatformRelease_Dependencies release |}.

(** Modelled from the spec: the declaration of [cores.Platform] is
    missing from the sources; a platform is one architecture of a package
    and owns its releases. *)
Record Platform := {
  Platform_Architecture : string;
  Platform_Releases : gmap string PlatformRelease;
}.

(** Modelled from the spec: the declaration of [cores.Package] is missing
    from the sources; a package owns a mapping from platform architecture
    to platform and a mapping from tool name to tool. *)
Record Package := {
  Package_Name : string;
  Package_Platforms : gmap string Platform;
  Package_Tools : gmap string Tool;
}.

(** Modelled from the spec: the declarations of [cores.Packages] and
    [cores.NewPackages()] are missing from the sources; the registry is
    the mapping from package name to package, empty when new. *)
Record Packages := {
  Packages_Packages : gmap string Package;
}.

Definition NewPackages : Packages := {| Packages_Packages := ∅ |}.

(** The methods of package [cores] whose bodies are not among the sources
    and decide nothing here: parameters of the model.
    - [GetInstalled]: the installed release of a platform, [None] if no
      release is installed; the method reads the releases of its
      receiver, so a call through a [nil] platform is a nil dereference;
    - [GetBuildProperties]: the build properties of a board merged with
      the configuration selected in the FQBN, and an error for an
      invalid configuration;
    - [GetLatestInstalled]: the latest installed release of a tool,
      [None] if no release is installed. *)
Class Methods := {
  GetInstalled : Platform → option PlatformRelease;
  GetBuildProperties :
    Board → gmap string string → gmap string string * option string;
  GetLatestInstalled : Tool → option ToolRelease;
}.

(** Go visits the entries of a map in an unspecified order: the order of
    a [for ... range] over a map is a parameter, some enumeration of the
    entries of the map. *)
Class MapRange := {
  range : ∀ {A : Type}, gmap string A → list (string * A);
  range_perm : ∀ (A : Type) (m : gmap string A), range m ≡ₚ map_to_list m;
}.

(** Two more functions of package [cores] whose bodies are not among the
    sources: parameters of the model.
    - [HasUsbID]: whether a board declares the USB vendor and product id;
    - [ParseFQBN]: the FQBN a string denotes, or an error. *)
Class BoardMethods := {
  HasUsbID : Board → string → string → bool;
  ParseFQBN : string → option FQBN * option string;
}.

End cores.

(** *** Package [packagemanager] *)
Module packagemanager.
Import cores.

(** The errors the package manager builds with [errors.New] and
    [fmt.Errorf], one constructor per message, with the values the message
    is formatted from. *)
Inductive error :=
| UnknownPackage (name : string)
| UnknownPlatform (targetPackage : Package) (platformArch : string)
| PlatformNotInstalled
| BoardNotFound (platformRelease : PlatformRelease) (boardID : string)
| InvalidBuildProperties (board : Board) (err : string)
| MissingCorePackage (referredPackage : string) (platform : Platform)
| PackageNotFound (name : string)
| ToolNotFound (name : string) (package : string)
| ReleaseNotFound (version : string) (tool : string)
| ToolReleaseNotFound (toolDep : ToolDependency).

(** A call either returns or panics; the panics of the model are the
    dereferences of a [nil] pointer. *)
Inductive outcome (A : Type) :=
| Returns (a : A)
| Panics.
Arguments Returns {A} a.
Arguments Panics {A}.

#[export] Instance outcome_ret : MRet outcome := λ A a, Returns a.
#[export] Instance outcome_bind : MBind outcome :=
  λ A B k m, match m with Returns a => k a | Panics => Panics end.

(** [PackageManager]: the registry it holds (the logger and the event
    handler take no part in resolution). *)
Record PackageManager := {
  packages : Packages;
}.

(** Methods of [*PackageManager] are state transformers over the package
    manager: they may read and write its fields. *)
Definition PM (A : Type) : Type := PackageManager → A * PackageManager.

#[export] Instance PM_ret : MRet PM := λ A a pm, (a, pm).
#[export] Instance PM_bind : MBind PM :=
  λ A B k m pm, let '(a, pm') := m pm in k a pm'.

(** A read of the field [pm.packages], and an assignment to it. *)
Definition load_packages : PM Packages := λ pm, (packages pm, pm).
Definition store_packages (p : Packages) : PM unit :=
  λ pm, (tt, {| packages := p |}).

Definition Clear : PM unit := store_packages NewPackages.

Definition GetPackages : PM Packages := load_packages.

(** The six values [ResolveFQBN] returns. *)
Record Resolution := {
  targetPackage : option Package;
  platformRelease : option PlatformRelease;
  board : option Board;
  buildProperties : option (gmap string string);
  buildPlatformRelease : option PlatformRelease;
  err : option error;
}.

Section with_cores.
Context `{Methods} `{MapRange}.

Definition ResolveFQBN (fqbn : FQBN) : PM (outcome Resolution) :=
  (* Find package *)
  pkgs ← load_packages;
  match Packages_Packages pkgs !! FQBN_Package fqbn with
  | None =>
      mret (Returns {| targetPackage := None; platformRelease := None;
                       board := None; buildProperties := None;
                       buildPlatformRelease := None;
                       err := Some (UnknownPackage (FQBN_Package fqbn)) |})
  | Some targetPackage =>
  (* Find platform *)
  match Package_Platforms targetPackage !! FQBN_PlatformArch fqbn with
  | None =>
      mret (Returns {| targetPackage := Some targetPackage;
                       platformRelease := None;
                       board := None; buildProperties := None;
                       buildPlatformRelease := None;
                       err := Some (UnknownPlatform targetPackage
                                      (FQBN_PlatformArch fqbn)) |})
  | Some platform =>
  match GetInstalled platform with
  | None =>
      mret (Returns {| targetPackage := Some targetPackage;
                       platformRelease := None;
                       board := None; buildProperties := None;
                       buildPlatformRelease := None;
                       err := Some PlatformNotInstalled |})
  | Some platformRelease =>
  (* Find board *)
  match PlatformRelease_Boards platformRelease !! FQBN_BoardID fqbn with
  | None =>
      mret (Returns {| targetPackage := Some targetPackage;
                       platformRelease := Some platformRelease;
                       board := None; buildProperties := None;
                       buildPlatformRelease := None;
                       err := Some (BoardNotFound platformRelease
                                      (FQBN_BoardID fqbn)) |})
  | Some board =>
  match GetBuildProperties board (FQBN_Configs fqbn) with
  | (_, Some err) =>
      mret (Returns {| targetPackage := Some targetPackage;
                       platformRelease := Some platformRelease;
                       board := Some board; buildProperties := None;
                       buildPlatformRelease := None;
                       err := Some (InvalidBuildProperties board err) |})
  | (buildProperties, None) =>
  (* Determine the platform used for the build (in case the board refers
     to a core contained in another platform) *)
  let coreParts :=
    gostrings.Split (default "" (buildProperties !! "build.core")) ":" in
  if (1 <? length coreParts)%nat then
    let referredPackage := default "" (coreParts !! 1%nat) in
    pkgs ← load_packages;
    match Packages_Packages pkgs !! referredPackage with
    | None =>
        mret (Returns {| targetPackage := Some targetPackage;
                         platformRelease := Some platformRelease;
                         board := Some board;
                         buildProperties := Some buildProperties;
                         buildPlatformRelease := None;
                         err := Some (MissingCorePackage referredPackage
                                        platform) |})
    | Some buildPackage =>
        match Package_Platforms buildPackage !! FQBN_PlatformArch fqbn with
        | None => mret Panics    (* [GetInstalled] through a nil [*Platform] *)
        | Some buildPlatform =>
            mret (Returns {| targetPackage := Some targetPackage;
                             platformRelease := Some platformRelease;
                             board := Some board;
                             buildProperties := Some buildProperties;
                             buildPlatformRelease := GetInstalled buildPlatform;
                             err := None |})
        end
    end
  else
    (* No errors... phew! *)
    mret (Returns {| targetPackage := Some targetPackage;
                     platformRelease := Some platformRelease;
                     board := Some board;
                     buildProperties := Some buildProperties;
                     buildPlatformRelease := Some platformRelease;
                     err := None |})
  end end end end end.

(** The resolution up to the build properties: package, platform,
    installed release, board and merged properties are all found. *)
Definition resolves_board (pm : PackageManager) (fqbn : FQBN)
    (targetPackage : Package) (platform : Platform)
    (platformRelease : PlatformRelease) (board : Board)
    (buildProperties : gmap string string) : Prop :=
  Packages_Packages (packages pm) !! FQBN_Package fqbn = Some targetPackage ∧
  Package_Platforms targetPackage !! FQBN_PlatformArch fqbn = Some platform ∧
  GetInstalled platform = Some platformRelease ∧
  PlatformRelease_Boards platformRelease !! FQBN_BoardID fqbn = Some board ∧
  GetBuildProperties board (FQBN_Configs fqbn) = (buildProperties, None).

(** The fluent lookups: each step carries the value found so far and the
    first error met. *)
Record packageActions := {
  aPackage : option Package;
  packageActions_forwardError : option error;
}.

Record toolActions := {
  tool : option Tool;
  toolActions_forwardError : option error;
}.

Record toolReleaseActions := {
  release : option ToolRelease;
  toolReleaseActions_forwardError : option error;
}.

Definition PackageManager_Package (name : string) : PM packageActions :=
  pkgs ← load_packages;
  let thePackage := Packages_Packages pkgs !! name in
  let err := match thePackage with
             | None => Some (PackageNotFound name)
             | Some _ => None
             end in
  mret {| aPackage := thePackage; packageActions_forwardError := err |}.

Definition packageActions_Tool (pa : packageActions) (name : string)
  : outcome toolActions :=
  match packageActions_forwardError pa with
  | Some err => Returns {| tool := None; toolActions_forwardError := Some err |}
  | None =>
      match aPackage pa with
      | None => Panics
      | Some aPackage =>
          match Package_Tools aPackage !! name with
          | None =>
              Returns {| tool := None;
                         toolActions_forwardError :=
                           Some (ToolNotFound name (Package_Name aPackage)) |}
          | Some tool =>
              Returns {| tool := Some tool; toolActions_forwardError := None |}
          end
      end
  end.

Definition toolActions_Release (ta : toolActions) (version : string)
  : outcome toolReleaseActions :=
  match toolActions_forwardError ta with
  | Some err =>
      Returns {| release := None; toolReleaseActions_forwardError := Some err |}
  | None =>
      match tool ta with
      | None => Panics
      | Some tool =>
          match GetRelease tool version with
          | None =>
              Returns {| release := None;
                         toolReleaseActions_forwardError :=
                           Some (ReleaseNotFound version
                                   (Tool_String (Tool_ref tool))) |}
          | Some release =>
              Returns {| release := Some release;
                         toolReleaseActions_forwardError := None |}
          end
      end
  end.

Definition toolReleaseActions_Get (tr : toolReleaseActions)
  : option ToolRelease * option error :=
  match toolReleaseActions_forwardError tr with
  | Some err => (None, Some err)
  | None => (release tr, None)
  end.

Definition FindToolDependency (dep : ToolDependency)
  : PM (outcome (option ToolRelease)) :=
  pa ← PackageManager_Package (ToolPackager dep);
  mret (ta ← packageActions_Tool pa (ToolName dep);
        tr ← toolActions_Release ta (ToolVersion dep);
        match toolReleaseActions_Get tr with
        | (_, Some err) => @Returns (option ToolRelease) None
        | (toolRelease, None) => Returns toolRelease
        end).

(** The first loop of [FindToolsRequiredForBoard]: the latest installed
    release of every tool of every package, keyed by ["PACKAGER:TOOL"]. *)
Definition availableTools (pkgs : Packages) : gmap string ToolRelease :=
  foldl (λ foundTools '(_, targetPackage),
           foldl (λ foundTools '(_, tool),
                    match GetLatestInstalled tool with
                    | Some rel =>
                        <[Tool_String (ToolRelease_Tool rel) := rel]> foundTools
                    | None => foundTools
                    end)
                 foundTools (range (Package_Tools targetPackage)))
        ∅ (range (Packages_Packages pkgs)).

(** The second loop: the releases the platform requires replace the
    defaults; the loop stops at the first dependency that is not found. *)
Fixpoint requiredTools_range (dependencies : list ToolDependency)
    (foundTools : gmap string ToolRelease)
  : PM (outcome (gmap string ToolRelease + error)) :=
  match dependencies with
  | [] => mret (Returns (inl foundTools))
  | toolDep :: dependencies' =>
      tool ← FindToolDependency toolDep;
      match tool with
      | Panics => mret Panics
      | Returns None => mret (Returns (inr (ToolReleaseNotFound toolDep)))
      | Returns (Some tool) =>
          requiredTools_range dependencies'
            (<[Tool_String (ToolRelease_Tool tool) := tool]> foundTools)
      end
  end.

(** The slice and the error [FindToolsRequiredForBoard] returns; a [nil]
    slice is [None]. *)
Definition FindToolsRequiredForBoard (board : Board)
  : PM (outcome (option (list ToolRelease) * option error)) :=
  let platform := Board_PlatformRelease board in
  pkgs ← load_packages;
  let foundTools := availableTools pkgs in
  match platform with
  | None => mret Panics
  | Some platform =>
      found ← requiredTools_range
                (PlatformReleaseRef_Dependencies platform) foundTools;
      match found with
      | Panics => mret Panics
      | Returns (inr err) => mret (Returns (None, Some err))
      | Returns (inl foundTools) =>
          let requiredTools := snd <$> range foundTools in
          mret (Returns (Some requiredTools, None))
      end
  end.

(** The registry lookup a tool dependency stands for: the release with the
    version of the dependency, of the tool with its name, of the package
    with its packager. *)
Definition lookup_dependency (pkgs : Packages) (dep : ToolDependency)
  : option ToolRelease :=
  aPackage ← Packages_Packages pkgs !! ToolPackager dep;
  tool ← Package_Tools aPackage !! ToolName dep;
  GetRelease tool (ToolVersion dep).

(** The entries the first loop stores, in the order it stores them when
    the maps are enumerated by [enum]. *)
Definition tool_entries (enum : ∀ A : Type, gmap string A → list (string * A))
    (pkgs : Packages) : list (string * ToolRelease) :=
  '(_, targetPackage) ← enum _ (Packages_Packages pkgs);
  '(_, tool) ← enum _ (Package_Tools targetPackage);
  match GetLatestInstalled tool with
  | Some rel => [(Tool_String (ToolRelease_Tool rel), rel)]
  | None => []
  end.

(** The same entries in the canonical order of the maps. *)
Definition availableTools_entries (pkgs : Packages)
  : list (string * ToolRelease) :=
  tool_entries (λ A, map_to_list) pkgs.

(** No two tools of the registry have the same ["packager:toolName"] key. *)
Definition distinct_tool_keys (pkgs : Packages) : Prop :=
  NoDup (availableTools_entries pkgs).*1.

(** A registry as its loader builds it: the latest installed release of a
    tool points back to that tool, under the name the tool is filed under
    in the package and the name the package is filed under in the
    registry; and the name of a packager has no colon. *)
Definition well_formed (pkgs : Packages) : Prop :=
  ∀ packager aPackage name aTool rel,
    Packages_Packages pkgs !! packager = Some aPackage →
    Package_Tools aPackage !! name = Some aTool →
    GetLatestInstalled aTool = Some rel →
    ToolRelease_Tool rel =
      {| ToolRef_Name := name; ToolRef_Package := packager |} ∧
    gostrings.Count packager ":" = 0.

End with_cores.

(** **** The other methods of the package manager *)

(** What [FindBoardWithFQBN] returns as error: its own, for a string that
    is no FQBN, or the error of [ResolveFQBN] as it is. *)
Inductive board_error :=
| ParsingFQBN (err : string)
| Resolving (err : error).

Section more_methods.
Context `{Methods} `{MapRange} `{BoardMethods}.

Definition NewPackageManager : PackageManager :=
  {| packages := NewPackages |}.

(** The boards are appended in the order the three loops meet them. *)
Definition FindBoardsWithVidPid (vid pid : string) : PM (list Board) :=
  pkgs ← load_packages;
  mret ('(_, targetPackage) ← range (Packages_Packages pkgs);
        '(_, targetPlatform) ← range (Package_Platforms targetPackage);
        match GetInstalled targetPlatform with
        | Some platform =>
            '(_, board) ← range (PlatformRelease_Boards platform);
            if HasUsbID board vid pid then [board] else []
        | None => []
        end).

Definition FindBoardsWithID (id : string) : PM (list Board) :=
  pkgs ← load_packages;
  mret ('(_, targetPackage) ← range (Packages_Packages pkgs);
        '(_, targetPlatform) ← range (Package_Platforms targetPackage);
        match GetInstalled targetPlatform with
        | Some platform =>
            '(_, board) ← range (PlatformRelease_Boards platform);
            if String.eqb (Board_BoardId board) id then [board] else []
        | None => []
        end).

Definition FindBoardWithFQBN (fqbnIn : string)
  : PM (outcome (option Board * option board_error)) :=
  match ParseFQBN fqbnIn with
  | (_, Some err) => mret (Returns (None, Some (ParsingFQBN err)))
  | (None, None) => mret Panics
  | (Some fqbn, None) =>
      resolved ← ResolveFQBN fqbn;
      mret (r ← resolved;
            Returns (board r, Resolving <$> err r))
  end.

(** [toolActions.Get]. *)
Definition toolActions_Get (ta : toolActions) : option Tool * option error :=
  match toolActions_forwardError ta with
  | None => (tool ta, None)
  | Some err => (None, Some err)
  end.


Definition GetAllInstalledToolsReleases : PM (list ToolRelease) :=
  pkgs ← load_packages;
  mret ('(_, targetPackage) ← range (Packages_Packages pkgs);
        '(_, tool) ← range (Package_Tools targetPackage);
        '(_, release) ← range (Tool_Releases tool);
        if IsInstalled release then [release] else []).


(** The chain [pm.Package(packager).Tool(name).Release(version).Get()]. *)
Definition release_of (packager name version : string)
  : PM (outcome (option ToolRelease * option error)) :=
  pa ← PackageManager_Package packager;
  mret (ta ← packageActions_Tool pa name;
        tr ← toolActions_Release ta version;
        Returns (toolReleaseActions_Get tr)).

(** The key of a release in the mapping of [FindToolsRequiredForBoard]. *)
Definition tool_key (rel : ToolRelease) : string :=
  Tool_String (ToolRelease_Tool rel).

(** The releases the dependencies resolve to, in the order of the
    dependencies. *)
Definition pinned (pkgs : Packages) (dependencies : list ToolDependency)
  : list ToolRelease :=
  omap (lookup_dependency pkgs) dependencies.

(** The mapping after the releases [rels] have replaced, one after the
    other, the entries with their keys. *)
Definition replaced (foundTools : gmap string ToolRelease)
    (rels : list ToolRelease) : gmap string ToolRelease :=
  foldl (λ found rel, <[tool_key rel := rel]> found) foundTools rels.

(** Every entry of the mapping is stored under the key of its release. *)
Definition keyed (foundTools : gmap string ToolRelease) : Prop :=
  ∀ key rel, foundTools !! key = Some rel → key = tool_key rel.

(** A board of an installed release of the registry. *)
Definition installed_board (pkgs : Packages) (aBoard : Board) : Prop :=
  ∃ packager aPackage arch platform installed boardId,
    Packages_Packages pkgs !! packager = Some aPackage ∧
    Package_Platforms aPackage !! arch = Some platform ∧
    GetInstalled platform = Some installed ∧
    PlatformRelease_Boards installed !! boardId = Some aBoard.

(** A tool of the registry and one of its releases. *)
Definition registered_release (pkgs : Packages) (aTool : Tool)
    (rel : ToolRelease) : Prop :=
  ∃ packager aPackage name version,
    Packages_Packages pkgs !! packager = Some aPackage ∧
    Package_Tools aPackage !! name = Some aTool ∧
    Tool_Releases aTool !! version = Some rel.

End more_methods.

(** **** A concrete registry

    The methods of [cores] for a registry whose boards have no
    configuration menus, and the canonical enumeration of a map. *)

(** Modelled from the spec: [Platform.GetInstalled()] is missing from the
    sources; a platform has at most one release marked installed, and
    resolution reads that one. *)
Definition installed_release (platform : Platform) : option PlatformRelease :=
  snd <$> List.find (λ '(_, r), PlatformRelease_Installed r)
                    (map_to_list (Platform_Releases platform)).

(** Modelled from the spec: [Tool.GetLatestInstalled()] is missing from
    the sources; the maximum installed version, versions compared as
    strings. *)
Definition latest_installed (tool : Tool) : option ToolRelease :=
  foldr (λ '(_, r) latest,
           if IsInstalled r then
             match latest with
             | Some l =>
                 if String.ltb (ToolRelease_Version l) (ToolRelease_Version r)
                 then Some r else Some l
             | None => Some r
             end
           else latest)
        None (map_to_list (Tool_Releases tool)).

(** Modelled from the spec: [Board.GetBuildProperties(configs)] is missing
    from the sources; a board without menus has its own properties, and
    any configuration key is invalid for it. *)
Definition plain_build_properties (board : Board) (configs : gmap string string)
  : gmap string string * option string :=
  if decide (configs = ∅) then (Board_Properties board, None)
  else (∅, Some "invalid option").

Definition plain_methods : Methods :=
  {| GetInstalled := installed_release;
     GetBuildProperties := plain_build_properties;
     GetLatestInstalled := latest_installed |}.

Definition canonical_range : MapRange :=
  {| range := λ A m, map_to_list m;
     range_perm := λ A m, reflexivity (map_to_list m) |}.

(** Another enumeration of a map: the canonical one backwards. *)
Definition reversed_range : MapRange :=
  {| range := λ A m, reverse (map_to_list m);
     range_perm := λ A m, reverse_Permutation (map_to_list m) |}.

Definition fqbn (package platformArch boardID : string) : FQBN :=
  {| FQBN_Package := package; FQBN_PlatformArch := platformArch;
     FQBN_BoardID := boardID; FQBN_Configs := ∅ |}.

Definition avr_gcc : ToolRef :=
  {| ToolRef_Name := "avr-gcc"; ToolRef_Package := "arduino" |}.
Definition avr_gcc_4_9_2 : ToolRelease :=
  {| ToolRelease_Version := "4.9.2"; ToolRelease_Tool := avr_gcc;
     ToolRelease_Installed := true |}.
Definition avr_gcc_5_4_0 : ToolRelease :=
  {| ToolRelease_Version := "5.4.0"; ToolRelease_Tool := avr_gcc;
     ToolRelease_Installed := false |}.
Definition avrdude : ToolRef :=
  {| ToolRef_Name := "avrdude"; ToolRef_Package := "arduino" |}.
Definition avrdude_6_3_0 : ToolRelease :=
  {| ToolRelease_Version := "6.3.0"; ToolRelease_Tool := avrdude;
     ToolRelease_Installed := true |}.
Definition bossac : ToolRef :=
  {| ToolRef_Name := "bossac"; ToolRef_Package := "arduino" |}.
Definition bossac_1_7_0 : ToolRelease :=
  {| ToolRelease_Version := "1.7.0"; ToolRelease_Tool := bossac;
     ToolRelease_Installed := false |}.

Definition arduino_tools : gmap string Tool :=
  {[ "avr-gcc" := {| Tool_Name := "avr-gcc"; Tool_Package := "arduino";
                     Tool_Releases := {[ "4.9.2" := avr_gcc_4_9_2;
                                         "5.4.0" := avr_gcc_5_4_0 ]} |};
     "avrdude" := {| Tool_Name := "avrdude"; Tool_Package := "arduino";
                     Tool_Releases := {[ "6.3.0" := avrdude_6_3_0 ]} |};
     "bossac" := {| Tool_Name := "bossac"; Tool_Package := "arduino";
                    Tool_Releases := {[ "1.7.0" := bossac_1_7_0 ]} |} ]}.

(** A release of [arduino:avr] with its boards; a board points back to
    the release through its version and its tool dependencies. *)
Definition avr_board (dependencies : list ToolDependency)
    (boardId core : string) : Board :=
  {| Board_BoardId := boardId;
     Board_Properties := {[ "build.core" := core; "build.mcu" := "atmega328p" ]};
     Board_PlatformRelease :=
       Some {| PlatformReleaseRef_Version := "1.6.21";
               PlatformReleaseRef_Dependencies := dependencies |} |}.

Definition avr_release (dependencies : list ToolDependency) : PlatformRelease :=
  {| PlatformRelease_Version := "1.6.21";
     PlatformRelease_Dependencies := dependencies;
     PlatformRelease_Boards :=
       {[ "uno" := avr_board dependencies "uno" "arduino";
          "clone" := avr_board dependencies "clone" "otherpkg:core";
          "phantom" := avr_board dependencies "phantom" "ghost:arduino";
          "mega" := avr_board dependencies "mega" "megaavr:megaavr" ]};
     PlatformRelease_Installed := true |}.

Definition avr_platform (dependencies : list ToolDependency) : Platform :=
  {| Platform_Architecture := "avr";
     Platform_Releases := {[ "1.6.21" := avr_release dependencies ]} |}.

(** [arduino:sam] is known, and none of its releases is installed. *)
Definition sam_platform : Platform :=
  {| Platform_Architecture := "sam"; Platform_Releases := ∅ |}.

Definition arduino_package (dependencies : list ToolDependency) : Package :=
  {| Package_Name := "arduino";
     Package_Platforms := {[ "avr" := avr_platform dependencies;
                             "sam" := sam_platform ]};
     Package_Tools := arduino_tools |}.

Definition otherpkg_release : PlatformRelease :=
  {| PlatformRelease_Version := "2.0.0";
     PlatformRelease_Dependencies := [];
     PlatformRelease_Boards := ∅;
     PlatformRelease_Installed := true |}.

Definition otherpkg_avr : Platform :=
  {| Platform_Architecture := "avr";
     Platform_Releases := {[ "2.0.0" := otherpkg_release ]} |}.

Definition otherpkg_package : Package :=
  {| Package_Name := "otherpkg";
     Package_Platforms := {[ "avr" := otherpkg_avr ]};
     Package_Tools := ∅ |}.

(** [megaavr] knows a release for [avr], which is not installed. *)
Definition megaavr_avr : Platform :=
  {| Platform_Architecture := "avr";
     Platform_Releases :=
       {[ "1.8.0" := {| PlatformRelease_Version := "1.8.0";
                        PlatformRelease_Dependencies := [];
                        PlatformRelease_Boards := ∅;
                        PlatformRelease_Installed := false |} ]} |}.

Definition megaavr_package : Package :=
  {| Package_Name := "megaavr";
     Package_Platforms := {[ "avr" := megaavr_avr ]};
     Package_Tools := ∅ |}.

(** The registry: packages [arduino], [otherpkg] and [megaavr]; there is
    no package [ghost] and no package [core]. *)
Definition registry (dependencies : list ToolDependency) : PackageManager :=
  {| packages :=
       {| Packages_Packages :=
            {[ "arduino" := arduino_package dependencies;
               "otherpkg" := otherpkg_package;
               "megaavr" := megaavr_package ]} |} |}.

Definition dependency (name version : string) : ToolDependency :=
  {| ToolName := name; ToolVersion := version; ToolPackager := "arduino" |}.


(** Modelled from the spec: [Board.HasUsbID(vid, pid)] is missing from the
    sources; a board carries declared USB vendor and product ids, here the
    first pair, in its properties [vid.0] and [pid.0]. *)
Definition declares_usb_id (aBoard : Board) (vid pid : string) : bool :=
  bool_decide (Board_Properties aBoard !! "vid.0" = Some vid) &&
  bool_decide (Board_Properties aBoard !! "pid.0" = Some pid).

(** Modelled from the spec: [cores.ParseFQBN] is missing from the sources;
    an FQBN is [package:platformArch:boardId], here without the optional
    configuration part. *)
Definition parse_plain_fqbn (fqbnIn : string) : option FQBN * option string :=
  match gostrings.Split fqbnIn ":" with
  | [package; platformArch; boardID] =>
      (Some (fqbn package platformArch boardID), None)
  | _ => (None, Some ("invalid fqbn: " +:+ fqbnIn))
  end.

Definition plain_board_methods : BoardMethods :=
  {| HasUsbID := declares_usb_id; ParseFQBN := parse_plain_fqbn |}.

(** A package with one installed platform release and a board that
    declares a USB id. *)
Definition leonardo : Board :=
  {| Board_BoardId := "leonardo";
     Board_Properties := {[ "build.core" := "arduino";
                            "vid.0" := "0x2341"; "pid.0" := "0x8036" ]};
     Board_PlatformRelease :=
       Some {| PlatformReleaseRef_Version := "1.6.21";
               PlatformReleaseRef_Dependencies := [] |} |}.

Definition usb_release : PlatformRelease :=
  {| PlatformRelease_Version := "1.6.21";
     PlatformRelease_Dependencies := [];
     PlatformRelease_Boards := {[ "leonardo" := leonardo ]};
     PlatformRelease_Installed := true |}.

Definition usb_platform : Platform :=
  {| Platform_Architecture := "avr";
     Platform_Releases := {[ "1.6.21" := usb_release ]} |}.

Definition usb_package : Package :=
  {| Package_Name := "arduino";
     Package_Platforms := {[ "avr" := usb_platform ]};
     Package_Tools := arduino_tools |}.

Definition usb_registry : PackageManager :=
  {| packages := {| Packages_Packages := {[ "arduino" := usb_package ]} |} |}.

End packagemanager.

(** *** Package [builder]: [legacy/builder/builder.go] *)
Module builder.

(** The operations [Builder.Run] performs on its collaborators (the
    builder, the library detector, the logger and the progress tracker
    reached through [*types.Context], and [logrus]). *)
Inductive Call :=
| MkdirAll
| WipeBuildPath
| RunRecipe (prefix suffix : string) (skipIfOnlyUpdatingCompilationDatabase : bool)
| PrepareSketchBuildPath
| Verbose
| Warn (msg : string)
| Info (msg : string)
| FindIncludes
| WarnAboutArchIncompatibleLibraries
| PreprocessSketch
| BuildSketch
| RemoveUnusedCompiledLibraries
| BuildLibraries
| BuildCore
| Link
| MergeSketchWithBootloader
| AddSubSteps (n : nat)
| RemoveSubSteps
| CompleteStep
| PushProgress
| SaveCompilationDatabase
| PrintUsedAndNotUsedLibraries (sketchError : bool)
| PrintUsedLibraries
| ExportProjectCMake (sketchError : bool)
| Size (sketchError : bool)
| Debugf.

#[export] Instance Call_eq_dec : EqDecision Call.
Proof. solve_decision. Defined.

(** What a call answers: [Verbose] a boolean, the operations that return
    nothing a unit, the others an error or [nil]. *)
Definition answer (error : Type) (c : Call) : Type :=
  match c with
  | Verbose => bool
  | Warn _ | Info _ | WarnAboutArchIncompatibleLibraries
  | AddSubSteps _ | RemoveSubSteps | CompleteStep | PushProgress
  | SaveCompilationDatabase | PrintUsedAndNotUsedLibraries _
  | PrintUsedLibraries | Debugf => unit
  | _ => option error
  end.

(** The collaborators are parameters of the model: the state behind
    [*types.Context], the effect and the answer of each call on it, the
    errors, [errors.WithStack] and the translation [tr] of a message. *)
Class Collaborators := {
  Context : Type;
  error : Type;
  perform : ∀ c : Call, Context → answer error c * Context;
  WithStack : error → error;
  tr : string → string;
}.

Section with_collaborators.
Context `{Collaborators}.

(** A run carries the context and, as ghost state, the calls made so far. *)
Record State := {
  ctx : Context;
  calls : list Call;
}.

Definition Run (A : Type) : Type := State → A * State.

#[export] Instance Run_ret : MRet Run := λ A a st, (a, st).
#[export] Instance Run_bind : MBind Run :=
  λ A B k m st, let '(a, st') := m st in k a st'.

Definition call (c : Call) : Run (answer error c) :=
  λ st, let '(a, ctx') := perform c (ctx st) in
        (a, {| ctx := ctx'; calls := calls st ++ [c] |}).

(** [types.Command]: something with a [Run(ctx) error] method. *)
Definition Command : Type := Run (option error).

Definition recipeByPrefixSuffixRunner (prefix suffix : string)
    (skipIfOnlyUpdatingCompilationDatabase : bool) : Command :=
  call (RunRecipe prefix suffix skipIfOnlyUpdatingCompilationDatabase).

Definition containerBuildOptions : Command := call WipeBuildPath.

Definition findIncludes : Command := call FindIncludes.

Definition warnAboutArchIncompatibleLibraries : Command :=
  _ ← call WarnAboutArchIncompatibleLibraries;
  mret None.

Definition preprocessSketchCommand : Command := call PreprocessSketch.

Definition logIfVerbose (warn : bool) (msg : string) : Command :=
  verbose ← call Verbose;
  if negb verbose then mret None
  else
    _ ← (if warn then call (Warn msg) else call (Info msg));
    mret None.

Definition PrintRingNameIfDebug (command : Command) : Run unit := call Debugf.

(** The loop both sequences of [Builder.Run] and [runCommands] share: the
    commands in order, until one fails; the error is wrapped by
    [errors.WithStack]. *)
Fixpoint range_commands (commands : list Command) : Run (option error) :=
  match commands with
  | [] => mret None
  | command :: commands' =>
      _ ← PrintRingNameIfDebug command;
      err ← command;
      match err with
      | Some err => mret (Some (WithStack err))
      | None =>
          _ ← call CompleteStep;
          _ ← call PushProgress;
          range_commands commands'
      end
  end.

Definition main_commands : list Command := [
  containerBuildOptions;
  recipeByPrefixSuffixRunner "recipe.hooks.prebuild" ".pattern" false;
  call PrepareSketchBuildPath;
  logIfVerbose false (tr "Detecting libraries used...");
  findIncludes;
  warnAboutArchIncompatibleLibraries;
  logIfVerbose false (tr "Generating function prototypes...");
  preprocessSketchCommand;
  logIfVerbose false (tr "Compiling sketch...");
  recipeByPrefixSuffixRunner "recipe.hooks.sketch.prebuild" ".pattern" false;
  call BuildSketch;
  recipeByPrefixSuffixRunner "recipe.hooks.sketch.postbuild" ".pattern" true;
  logIfVerbose false (tr "Compiling libraries...");
  recipeByPrefixSuffixRunner "recipe.hooks.libraries.prebuild" ".pattern" false;
  call RemoveUnusedCompiledLibraries;
  call BuildLibraries;
  recipeByPrefixSuffixRunner "recipe.hooks.libraries.postbuild" ".pattern" true;
  logIfVerbose false (tr "Compiling core...");
  recipeByPrefixSuffixRunner "recipe.hooks.core.prebuild" ".pattern" false;
  call BuildCore;
  recipeByPrefixSuffixRunner "recipe.hooks.core.postbuild" ".pattern" true;
  logIfVerbose false (tr "Linking everything together...");
  recipeByPrefixSuffixRunner "recipe.hooks.linking.prelink" ".pattern" false;
  call Link;
  recipeByPrefixSuffixRunner "recipe.hooks.linking.postlink" ".pattern" true;
  recipeByPrefixSuffixRunner "recipe.hooks.objcopy.preobjcopy" ".pattern" false;
  recipeByPrefixSuffixRunner "recipe.objcopy." ".pattern" true;
  recipeByPrefixSuffixRunner "recipe.hooks.objcopy.postobjcopy" ".pattern" true;
  call MergeSketchWithBootloader;
  recipeByPrefixSuffixRunner "recipe.hooks.postbuild" ".pattern" true
].

(** The second list of commands; its closures read [mainErr]. *)
Definition secondary_commands (mainErr : option error) : list Command := [
  (_ ← call (PrintUsedAndNotUsedLibraries (bool_decide (mainErr ≠ None)));
   mret None);
  (_ ← call PrintUsedLibraries; mret None);
  call (ExportProjectCMake (bool_decide (mainErr ≠ None)));
  call (Size (bool_decide (mainErr ≠ None)))
].

Definition Builder_Run : Run (option error) :=
  err ← call MkdirAll;
  match err with
  | Some err => mret (Some err)
  | None =>
      let commands := main_commands in
      _ ← call (AddSubSteps (length commands + 5));
      mainErr ← range_commands commands;
      _ ← call SaveCompilationDatabase;
      let commands := secondary_commands mainErr in
      otherErr ← range_commands commands;
      let result := match mainErr with
                    | Some mainErr => Some mainErr
                    | None => otherErr
                    end in
      (* deferred *)
      _ ← call RemoveSubSteps;
      mret result
  end.

Definition runCommands (commands : list Command) : Run (option error) :=
  _ ← call (AddSubSteps (length commands));
  result ← range_commands commands;
  (* deferred *)
  _ ← call RemoveSubSteps;
  mret result.

Definition RunBuilder : Run (option error) := runCommands [Builder_Run].

(** One command of a sequence, as the loop runs it. *)
Definition run_command (command : Command) : Run (option error) :=
  _ ← PrintRingNameIfDebug command;
  command.

(** A completed stage is reported to the progress tracker. *)
Definition completed : Run unit :=
  _ ← call CompleteStep;
  call PushProgress.

(** [executes commands st st' r]: from [st], the commands run in order
    until one fails; [st'] is the state then and [r] the wrapped error of
    the failing command, or the state at the end of the list and [None]. *)
Inductive executes : list Command → State → State → option error → Prop :=
| executes_nil st : executes [] st st None
| executes_fail command commands st st' e :
    run_command command st = (Some e, st') →
    executes (command :: commands) st st' (Some (WithStack e))
| executes_step command commands st st1 st' r :
    run_command command st = (None, st1) →
    executes commands (completed st1).2 st' r →
    executes (command :: commands) st st' r.

(** The calls of the loop around a command. *)
Definition loop_call (c : Call) : bool :=
  match c with
  | Debugf | CompleteStep | PushProgress => true
  | _ => false
  end.

(** The calls the first sequence makes: those of its stages and of the
    loop. *)
Definition main_call (c : Call) : bool :=
  match c with
  | WipeBuildPath | RunRecipe _ _ _ | PrepareSketchBuildPath | Verbose
  | Warn _ | Info _ | FindIncludes | WarnAboutArchIncompatibleLibraries
  | PreprocessSketch | BuildSketch | RemoveUnusedCompiledLibraries
  | BuildLibraries | BuildCore | Link | MergeSketchWithBootloader => true
  | _ => loop_call c
  end.

(** The calls the second sequence makes. *)
Definition secondary_call (c : Call) : bool :=
  match c with
  | PrintUsedAndNotUsedLibraries _ | PrintUsedLibraries
  | ExportProjectCMake _ | Size _ => true
  | _ => loop_call c
  end.

(** [emits P m]: running [m] only adds calls that satisfy [P]. *)
Definition emits {A : Type} (P : Call → bool) (m : Run A) : Prop :=
  ∀ st, ∃ l, calls (m st).2 = calls st ++ l ∧ Forall (λ c, P c = true) l.

(** The state in which the first sequence starts, once the build path
    exists: the steps of both sequences are announced. *)
Definition announced (st : State) : State :=
  (call (AddSubSteps (length main_commands + 5)) st).2.

(** The state after [SaveCompilationDatabase], and the state after the
    deferred [RemoveSubSteps]. *)
Definition saved (st : State) : State := (call SaveCompilationDatabase st).2.
Definition released (st : State) : State := (call RemoveSubSteps st).2.

(** The second sequence, stage by stage, from the state [st] in which it
    starts.  [reported]: the state after the report on the used and unused
    libraries and the print of the used libraries, each announced to the
    debug log and, as neither can fail, each followed by the report of a
    completed step.  [exported]: the answer of [ExportProjectCMake],
    called next, and the state it leaves.  [sized]: the answer of [Size],
    called after the step of the export is reported as completed, and the
    state it leaves. *)
Definition reported (sketchError : bool) (st : State) : State :=
  (completed
     (call PrintUsedLibraries
        (call Debugf
           (completed
              (call (PrintUsedAndNotUsedLibraries sketchError)
                 (call Debugf st).2).2).2).2).2).2.

Definition exported (sketchError : bool) (st : State) : option error * State :=
  call (ExportProjectCMake sketchError)
       (call Debugf (reported sketchError st)).2.

Definition sized (sketchError : bool) (st : State) : option error * State :=
  call (Size sketchError)
       (call Debugf (completed (exported sketchError st).2).2).2.

End with_collaborators.

(** **** [Preprocess.Run]

    The two operations [Preprocess.Run] performs besides those of
    [Builder.Run]: reading back the preprocessed sketch from the sketch
    build path, and writing it to the standard output of the logger. *)
Class SketchIO `{Collaborators} := {
  ReadFile : Context → (string * option error) * Context;
  WriteStdout : string → Context → Context;
}.

Section with_sketch_io.
Context `{SketchIO}.

(** An operation on the context that is not among the calls recorded. *)
Definition on_context {A : Type} (f : Context → A * Context) : Run A :=
  λ st, let '(a, c) := f (ctx st) in (a, {| ctx := c; calls := calls st |}).

Definition preprocess_commands : list Command := [
  containerBuildOptions;
  recipeByPrefixSuffixRunner "recipe.hooks.prebuild" ".pattern" false;
  call PrepareSketchBuildPath;
  findIncludes;
  warnAboutArchIncompatibleLibraries;
  preprocessSketchCommand
].

Definition Preprocess_Run : Run (option error) :=
  err ← call MkdirAll;
  match err with
  | Some err => mret (Some err)
  | None =>
      let commands := preprocess_commands in
      err ← runCommands commands;
      match err with
      | Some err => mret (Some err)
      | None =>
          (* Output arduino-preprocessed source *)
          '(preprocessedSketch, err) ← on_context ReadFile;
          match err with
          | Some err => mret (Some err)
          | None =>
              _ ← on_context (λ c, (tt, WriteStdout preprocessedSketch c));
              mret None
          end
      end
  end.

Definition RunPreprocess : Run (option error) := Preprocess_Run.

(** The calls of a preprocessing run. *)
Definition preprocess_call (c : Call) : bool :=
  match c with
  | MkdirAll | AddSubSteps 6 | RemoveSubSteps
  | WipeBuildPath | PrepareSketchBuildPath | FindIncludes
  | WarnAboutArchIncompatibleLibraries | PreprocessSketch => true
  | RunRecipe prefix suffix skip =>
      String.eqb prefix "recipe.hooks.prebuild" && String.eqb suffix ".pattern"
      && negb skip
  | _ => loop_call c
  end.

End with_sketch_io.

(** **** Scripted collaborators

    Collaborators without a state of their own: a call fails when the
    script says so, the logger is verbose, and [errors.WithStack] wraps
    the error it is given. *)
Inductive scripted_error :=
| Failed (msg : string)
| Stack (e : scripted_error).

Definition scripted_answer (script : Call → option scripted_error) (c : Call)
  : answer scripted_error c :=
  match c as c' return answer scripted_error c' with
  | Verbose => true
  | Warn _ | Info _ | WarnAboutArchIncompatibleLibraries
  | AddSubSteps _ | RemoveSubSteps | CompleteStep | PushProgress
  | SaveCompilationDatabase | PrintUsedAndNotUsedLibraries _
  | PrintUsedLibraries | Debugf => tt
  | MkdirAll => script MkdirAll
  | WipeBuildPath => script WipeBuildPath
  | RunRecipe prefix suffix skip => script (RunRecipe prefix suffix skip)
  | PrepareSketchBuildPath => script PrepareSketchBuildPath
  | FindIncludes => script FindIncludes
  | PreprocessSketch => script PreprocessSketch
  | BuildSketch => script BuildSketch
  | RemoveUnusedCompiledLibraries => script RemoveUnusedCompiledLibraries
  | BuildLibraries => script BuildLibraries
  | BuildCore => script BuildCore
  | Link => script Link
  | MergeSketchWithBootloader => script MergeSketchWithBootloader
  | ExportProjectCMake sketchError => script (ExportProjectCMake sketchError)
  | Size sketchError => script (Size sketchError)
  end.

Definition scripted (script : Call → option scripted_error) : Collaborators :=
  {| Context := unit;
     error := scripted_error;
     perform := λ c _, (scripted_answer script c, tt);
     WithStack := Stack;
     tr := λ msg, msg |}.

(** The sketch does not compile, and the size cannot be computed. *)
Definition sketch_fails (c : Call) : option scripted_error :=
  match c with
  | BuildSketch => Some (Failed "exit status 1")
  | Size _ => Some (Failed "size: no such file")
  | _ => None
  end.

(** Everything builds, and the project cannot be exported. *)
Definition export_fails (c : Call) : option scripted_error :=
  match c with
  | ExportProjectCMake _ => Some (Failed "cmake: permission denied")
  | _ => None
  end.

(** The build path cannot be created. *)
Definition mkdir_fails (c : Call) : option scripted_error :=
  match c with
  | MkdirAll => Some (Failed "mkdir: permission denied")
  | _ => None
  end.

Definition failing_sketch : Collaborators := scripted sketch_fails.
Definition failing_export : Collaborators := scripted export_fails.

(** The preprocessed sketch of a scripted run is read back without
    error. *)
Definition scripted_io (script : Call → option scripted_error)
  : @SketchIO (scripted script) :=
  @Build_SketchIO (scripted script)
    (λ c, (("void setup();", None), c)) (λ _ c, c).

(** A state of a scripted run: the calls made so far. *)
Definition scripted_state (script : Call → option scripted_error)
    (made : list Call) : @State (scripted script) :=
  @Build_State (scripted script) tt made.

End builder.

(** ** Part II: properties *)

(** *** [strings.Contains] and [strings.Split] *)
Section gostrings_properties.
Import gostrings.

Lemma HasPrefix_spec (s prefix : string) :
  HasPrefix s prefix = true ↔ ∃ rest, s = prefix +:+ rest.
Proof.
  revert s. induction prefix as [|c prefix IH]; intros s; simpl.
  - split; [eauto | done].
  - destruct s as [|d s].
    + split; [done | by intros [rest ?]].
    + rewrite andb_true_iff, IH. split.
      * intros [Hcd [rest ->]]. apply Ascii.eqb_eq in Hcd as ->. eauto.
      * intros [rest [= -> ->]]. split; [apply Ascii.eqb_refl | eauto].
Qed.

(** [Contains s substr] holds exactly when [substr] occurs inside [s]. *)
Lemma Contains_spec (s substr : string) :
  Contains s substr = true ↔ ∃ before after, s = before +:+ substr +:+ after.
Proof.
  induction s as [|c s IH]; simpl.
  - rewrite orb_false_r, HasPrefix_spec. split.
    + intros [rest ->]. by exists "", rest.
    + intros [[|??] [after Heq]]; simpl in Heq; [eauto | done].
  - rewrite orb_true_iff, HasPrefix_spec, IH. split.
    + intros [[rest Heq] | (before & after & ->)].
      * by exists "", rest.
      * by exists (String c before), after.
    + intros [[|d before] [after Heq]]; simpl in Heq.
      * left. eauto.
      * injection Heq as -> ->. right. eauto.
Qed.

Lemma Contains_empty (s : string) : Contains s "" = true.
Proof. by destruct s. Qed.

Lemma Split_length (s : string) (sep : ascii) :
  length (Split s sep) = S (Count s sep).
Proof.
  induction s as [|c s IH]; simpl; [done |].
  destruct (Ascii.eqb c sep); simpl; [by rewrite IH |].
  destruct (Split s sep); simpl in *; [done | lia].
Qed.

(** A string without the separator is not split. *)
Lemma Split_no_sep (s : string) (sep : ascii) :
  Count s sep = 0 → Split s sep = [s].
Proof.
  induction s as [|c s IH]; simpl; [done |].
  destruct (Ascii.eqb c sep); [done |]. simpl. intros Hs. by rewrite IH.
Qed.

(** [Split] cuts [packager:core] into its two parts. *)
Lemma Split_two_parts (packager core : string) (sep : ascii) :
  Count packager sep = 0 → Count core sep = 0 →
  Split (packager +:+ String sep core) sep = [packager; core].
Proof.
  intros Hp Hc. induction packager as [|c p IH]; simpl in *.
  - by rewrite Ascii.eqb_refl, Split_no_sep.
  - destruct (Ascii.eqb c sep); [done |]. by rewrite IH.
Qed.

End gostrings_properties.

(** *** [utils.Match] *)
Section utils_properties.
Import gostrings utils.
Context `{Text}.

Lemma removeDiatrics_cases (s : string) :
  (∃ s', removeDiatrics s = (s', None)) ∨
  (∃ e, removeDiatrics s = ("", Some e)).
Proof.
  unfold removeDiatrics.
  destruct (transform_String _ s) as [s' [e|]]; eauto.
Qed.

Lemma cleans_clean (s : string) :
  cleans s → removeDiatrics (ToLower s) = (clean s, None).
Proof.
  unfold cleans, clean.
  by destruct (removeDiatrics (ToLower s)) as [s' [e|]].
Qed.

Lemma not_cleans (s : string) :
  ¬ cleans s → ∃ e, removeDiatrics (ToLower s) = ("", Some e).
Proof.
  unfold cleans. intros Hs.
  destruct (removeDiatrics_cases (ToLower s)) as [[s' Heq]|[e Heq]];
    rewrite Heq in *; [done | eauto].
Qed.


(** The loop answers [true] only after it has cleaned and found every
    substring. *)
Lemma Match_range_true (str : string) (substrings : list string) :
  (Match_range str substrings).1 = true ↔
  Forall (λ sub, cleans sub ∧ Contains str (clean sub) = true) substrings.
Proof.
  induction substrings as [|sub substrings IH]; simpl.
  - split; [constructor | done].
  - rewrite Forall_cons, <- IH. unfold cleans, clean.
    destruct (removeDiatrics (ToLower sub)) as [cleanSub [e|]]; simpl.
    + split; [done | by intros [[? _] _]].
    + destruct (Contains str cleanSub); simpl; [tauto |].
      split; [done | by intros [[_ ?] _]].
Qed.

Lemma Match_range_no_error_with_true (str : string) (substrings : list string) :
  (Match_range str substrings).1 = true → (Match_range str substrings).2 = None.
Proof.
  induction substrings as [|sub substrings IH]; simpl; [done |].
  destruct (removeDiatrics (ToLower sub)) as [cleanSub [e|]]; simpl; [done |].
  by destruct (Contains str cleanSub).
Qed.

(** [Match] answers [true] exactly when [str] and every substring are
    cleaned without error and every cleaned substring occurs in the
    cleaned [str]; the error is then [nil]. *)
Lemma Match_true_iff (str : string) (substrings : list string) :
  ((Match str substrings).1 = true ↔
   cleans str ∧
   Forall (λ sub, cleans sub ∧ Contains (clean str) (clean sub) = true)
          substrings) ∧
  ((Match str substrings).1 = true → (Match str substrings).2 = None).
Proof.
  unfold Match, cleans at 1, clean at 1.
  destruct (removeDiatrics (ToLower str)) as [str' [e|]]; simpl.
  - split; [| done]. split; [done | by intros [? _]].
  - split; [| apply Match_range_no_error_with_true].
    rewrite Match_range_true. tauto.
Qed.

(** When the cleaning of [str] fails, [Match] returns [false] and the
    error, whatever the substrings. *)
Lemma Match_error (str : string) (substrings : list string) :
  ¬ cleans str → ∃ e, Match str substrings = (false, Some e).
Proof.
  intros [e He]%not_cleans. unfold Match. rewrite He. eauto.
Qed.


End utils_properties.


(** *** [ResolveFQBN] *)
Section ResolveFQBN_properties.
Import cores packagemanager.
Context `{Methods} `{MapRange}.

(** Unfolds the reads of the package manager in a resolution. *)
Ltac run_pm :=
  unfold ResolveFQBN, mbind, mret, PM_bind, PM_ret, load_packages; simpl.


(** C4. A package, platform architecture, installed release or board that
    the FQBN names and the registry lacks gives the matching error
    (UnknownPackage, UnknownPlatform, PlatformNotInstalled, BoardNotFound),
    and what was resolved before the failing step is returned: the package
    when the platform or its installed release is missing, the package and
    the platform release when the board is missing. *)
Theorem ResolveFQBN_not_found (pm : PackageManager) (fqbn : FQBN) :
  (Packages_Packages (packages pm) !! FQBN_Package fqbn = None →
   ResolveFQBN fqbn pm =
     (Returns {| targetPackage := None; platformRelease := None;
                 board := None; buildProperties := None;
                 buildPlatformRelease := None;
                 err := Some (UnknownPackage (FQBN_Package fqbn)) |}, pm)) ∧
  (∀ aPackage,
     Packages_Packages (packages pm) !! FQBN_Package fqbn = Some aPackage →
     Package_Platforms aPackage !! FQBN_PlatformArch fqbn = None →
     ResolveFQBN fqbn pm =
       (Returns {| targetPackage := Some aPackage; platformRelease := None;
                   board := None; buildProperties := None;
                   buildPlatformRelease := None;
                   err := Some (UnknownPlatform aPackage
                                  (FQBN_PlatformArch fqbn)) |}, pm)) ∧
  (∀ aPackage platform,
     Packages_Packages (packages pm) !! FQBN_Package fqbn = Some aPackage →
     Package_Platforms aPackage !! FQBN_PlatformArch fqbn = Some platform →
     GetInstalled platform = None →
     ResolveFQBN fqbn pm =
       (Returns {| targetPackage := Some aPackage; platformRelease := None;
                   board := None; buildProperties := None;
                   buildPlatformRelease := None;
                   err := Some PlatformNotInstalled |}, pm)) ∧
  (∀ aPackage platform release,
     Packages_Packages (packages pm) !! FQBN_Package fqbn = Some aPackage →
     Package_Platforms aPackage !! FQBN_PlatformArch fqbn = Some platform →
     GetInstalled platform = Some release →
     PlatformRelease_Boards release !! FQBN_BoardID fqbn = None →
     ResolveFQBN fqbn pm =
       (Returns {| targetPackage := Some aPackage;
                   platformRelease := Some release;
                   board := None; buildProperties := None;
                   buildPlatformRelease := None;
                   err := Some (BoardNotFound release (FQBN_BoardID fqbn)) |},
        pm)).
Proof.
  repeat split.
  - intros Hp. run_pm. by rewrite Hp.
  - intros ? Hp Hpl. run_pm. by rewrite Hp, Hpl.
  - intros ?? Hp Hpl Hi. run_pm. by rewrite Hp, Hpl, Hi.
  - intros ??? Hp Hpl Hi Hb. run_pm. by rewrite Hp, Hpl, Hi, Hb.
Qed.

(** An invalid configuration: the board is returned with the error. *)
Lemma ResolveFQBN_invalid_build_properties (pm : PackageManager) (fqbn : FQBN)
    aPackage platform release aBoard properties e :
  Packages_Packages (packages pm) !! FQBN_Package fqbn = Some aPackage →
  Package_Platforms aPackage !! FQBN_PlatformArch fqbn = Some platform →
  GetInstalled platform = Some release →
  PlatformRelease_Boards release !! FQBN_BoardID fqbn = Some aBoard →
  GetBuildProperties aBoard (FQBN_Configs fqbn) = (properties, Some e) →
  ResolveFQBN fqbn pm =
    (Returns {| targetPackage := Some aPackage;
                platformRelease := Some release;
                board := Some aBoard; buildProperties := None;
                buildPlatformRelease := None;
                err := Some (InvalidBuildProperties aBoard e) |}, pm).
Proof.
  intros Hp Hpl Hi Hb Hprops. run_pm. by rewrite Hp, Hpl, Hi, Hb, Hprops.
Qed.

(** C7. When the merged [build.core] of the board has no colon, the build
    platform release is the platform release the FQBN resolves to, and
    there is no error. *)
Theorem ResolveFQBN_own_core (pm : PackageManager) (fqbn : FQBN)
    aPackage platform release aBoard properties :
  resolves_board pm fqbn aPackage platform release aBoard properties →
  gostrings.Count (default "" (properties !! "build.core")) ":" = 0 →
  ResolveFQBN fqbn pm =
    (Returns {| targetPackage := Some aPackage;
                platformRelease := Some release;
                board := Some aBoard;
                buildProperties := Some properties;
                buildPlatformRelease := Some release;
                err := None |}, pm).
Proof.
  intros (Hp & Hpl & Hi & Hb & Hprops) Hcore. run_pm.
  rewrite Hp, Hpl, Hi, Hb, Hprops, Split_length, Hcore. done.
Qed.

(** What the code does with a [build.core] of several parts: it looks up
    the package named by the SECOND part; without such a package the
    resolution fails with MissingCorePackage and returns the package, the
    platform release, the board and the build properties. *)
Lemma ResolveFQBN_second_part_missing (pm : PackageManager) (fqbn : FQBN)
    aPackage platform release aBoard properties first second parts :
  resolves_board pm fqbn aPackage platform release aBoard properties →
  gostrings.Split (default "" (properties !! "build.core")) ":"
    = first :: second :: parts →
  Packages_Packages (packages pm) !! second = None →
  ResolveFQBN fqbn pm =
    (Returns {| targetPackage := Some aPackage;
                platformRelease := Some release;
                board := Some aBoard;
                buildProperties := Some properties;
                buildPlatformRelease := None;
                err := Some (MissingCorePackage second platform) |}, pm).
Proof.
  intros (Hp & Hpl & Hi & Hb & Hprops) Hcore Hsecond. run_pm.
  rewrite Hp, Hpl, Hi, Hb, Hprops, Hcore. simpl. by rewrite Hsecond.
Qed.

(** ... and with such a package and a platform of the architecture in it,
    the build platform release is whatever that platform has installed,
    be it nothing, and there is no error. *)
Lemma ResolveFQBN_second_part_found (pm : PackageManager) (fqbn : FQBN)
    aPackage platform release aBoard properties first second parts
    buildPackage buildPlatform :
  resolves_board pm fqbn aPackage platform release aBoard properties →
  gostrings.Split (default "" (properties !! "build.core")) ":"
    = first :: second :: parts →
  Packages_Packages (packages pm) !! second = Some buildPackage →
  Package_Platforms buildPackage !! FQBN_PlatformArch fqbn = Some buildPlatform →
  ResolveFQBN fqbn pm =
    (Returns {| targetPackage := Some aPackage;
                platformRelease := Some release;
                board := Some aBoard;
                buildProperties := Some properties;
                buildPlatformRelease := GetInstalled buildPlatform;
                err := None |}, pm).
Proof.
  intros (Hp & Hpl & Hi & Hb & Hprops) Hcore Hsecond Hplatform. run_pm.
  rewrite Hp, Hpl, Hi, Hb, Hprops, Hcore. simpl.
  by rewrite Hsecond, Hplatform.
Qed.

End ResolveFQBN_properties.

(** *** [ResolveFQBN] on the concrete registry *)
Section ResolveFQBN_examples.
Import cores packagemanager.
#[local] Existing Instance plain_methods.
#[local] Existing Instance canonical_range.

(** [ResolveFQBN_not_found] on the registry: package [ghost] is unknown,
    [arduino] has no platform [esp32], [arduino:sam] has no installed
    release, and [arduino:avr] has no board [zero]. *)
Lemma ResolveFQBN_not_found_witness :
  ResolveFQBN (fqbn "ghost" "avr" "uno") (registry []) =
    (Returns {| targetPackage := None; platformRelease := None;
                board := None; buildProperties := None;
                buildPlatformRelease := None;
                err := Some (UnknownPackage "ghost") |}, registry []) ∧
  ResolveFQBN (fqbn "arduino" "esp32" "uno") (registry []) =
    (Returns {| targetPackage := Some (arduino_package []);
                platformRelease := None;
                board := None; buildProperties := None;
                buildPlatformRelease := None;
                err := Some (UnknownPlatform (arduino_package []) "esp32") |},
     registry []) ∧
  ResolveFQBN (fqbn "arduino" "sam" "due") (registry []) =
    (Returns {| targetPackage := Some (arduino_package []);
                platformRelease := None;
                board := None; buildProperties := None;
                buildPlatformRelease := None;
                err := Some PlatformNotInstalled |}, registry []) ∧
  ResolveFQBN (fqbn "arduino" "avr" "zero") (registry []) =
    (Returns {| targetPackage := Some (arduino_package []);
                platformRelease := Some (avr_release []);
                board := None; buildProperties := None;
                buildPlatformRelease := None;
                err := Some (BoardNotFound (avr_release []) "zero") |},
     registry []).
Proof.
  split; [| split; [| split]].
  - apply (proj1 (ResolveFQBN_not_found (registry [])
                    (fqbn "ghost" "avr" "uno"))).
    reflexivity.
  - apply (proj1 (proj2 (ResolveFQBN_not_found (registry [])
                           (fqbn "arduino" "esp32" "uno")))
             (arduino_package [])); reflexivity.
  - apply (proj1 (proj2 (proj2 (ResolveFQBN_not_found (registry [])
                                  (fqbn "arduino" "sam" "due"))))
             (arduino_package []) sam_platform); reflexivity.
  - apply (proj2 (proj2 (proj2 (ResolveFQBN_not_found (registry [])
                                  (fqbn "arduino" "avr" "zero"))))
             (arduino_package []) (avr_platform []) (avr_release []));
      reflexivity.
Defined.

(** [ResolveFQBN_own_core] on the registry: board [uno] has the core
    [arduino] of its own platform. *)
Lemma ResolveFQBN_own_core_witness :
  ResolveFQBN (fqbn "arduino" "avr" "uno") (registry []) =
    (Returns {| targetPackage := Some (arduino_package []);
                platformRelease := Some (avr_release []);
                board := Some (avr_board [] "uno" "arduino");
                buildProperties :=
                  Some (Board_Properties (avr_board [] "uno" "arduino"));
                buildPlatformRelease := Some (avr_release []);
                err := None |}, registry []).
Proof.
  apply (ResolveFQBN_own_core (registry []) (fqbn "arduino" "avr" "uno")
           (arduino_package []) (avr_platform []) (avr_release [])
           (avr_board [] "uno" "arduino")).
  - unfold resolves_board. split; [| split; [| split; [| split]]]; reflexivity.
  - reflexivity.
Defined.

(** C1. The code against the claim.  Board [phantom] has the core
    [ghost:arduino]: no package [ghost] exists, and the resolution does
    not fail, it answers with the release of package [arduino], the second
    part of the core.  Board [mega] has the core [megaavr:megaavr]: the
    package has no installed release for [avr], and the resolution answers
    without an error and without a build platform release. *)
Theorem ResolveFQBN_missing_core_unreported :
  Packages_Packages (packages (registry [])) !! "ghost" = None ∧
  ResolveFQBN (fqbn "arduino" "avr" "phantom") (registry []) =
    (Returns {| targetPackage := Some (arduino_package []);
                platformRelease := Some (avr_release []);
                board := Some (avr_board [] "phantom" "ghost:arduino");
                buildProperties :=
                  Some (Board_Properties (avr_board [] "phantom" "ghost:arduino"));
                buildPlatformRelease := Some (avr_release []);
                err := None |}, registry []) ∧
  Packages_Packages (packages (registry [])) !! "megaavr" = Some megaavr_package ∧
  Package_Platforms megaavr_package !! "avr" = Some megaavr_avr ∧
  GetInstalled megaavr_avr = None ∧
  ResolveFQBN (fqbn "arduino" "avr" "mega") (registry []) =
    (Returns {| targetPackage := Some (arduino_package []);
                platformRelease := Some (avr_release []);
                board := Some (avr_board [] "mega" "megaavr:megaavr");
                buildProperties :=
                  Some (Board_Properties (avr_board [] "mega" "megaavr:megaavr"));
                buildPlatformRelease := None;
                err := None |}, registry []).
Proof. repeat split; vm_compute; reflexivity. Qed.

(** C2. The code against the claim.  Board [clone] has the core
    [otherpkg:core], and package [otherpkg] has an installed release for
    [avr]: the resolution looks for a package named [core] and fails with
    MissingCorePackage. *)
Theorem ResolveFQBN_core_packager_ignored :
  Packages_Packages (packages (registry [])) !! "otherpkg" = Some otherpkg_package ∧
  Package_Platforms otherpkg_package !! "avr" = Some otherpkg_avr ∧
  GetInstalled otherpkg_avr = Some otherpkg_release ∧
  ResolveFQBN (fqbn "arduino" "avr" "clone") (registry []) =
    (Returns {| targetPackage := Some (arduino_package []);
                platformRelease := Some (avr_release []);
                board := Some (avr_board [] "clone" "otherpkg:core");
                buildProperties :=
                  Some (Board_Properties (avr_board [] "clone" "otherpkg:core"));
                buildPlatformRelease := None;
                err := Some (MissingCorePackage "core" (avr_platform [])) |},
     registry []).
Proof. repeat split; vm_compute; reflexivity. Qed.

End ResolveFQBN_examples.

(** *** [FindToolDependency] and [FindToolsRequiredForBoard] *)
Section FindToolsRequiredForBoard_properties.
Import cores packagemanager.
Context `{Methods} `{MapRange}.

Ltac run_pm :=
  unfold mbind, mret, PM_bind, PM_ret, load_packages; simpl.

(** The fluent chain is the plain lookup of the dependency in the
    registry; it never panics and never writes. *)
Lemma FindToolDependency_lookup (dep : ToolDependency) (pm : PackageManager) :
  FindToolDependency dep pm =
    (Returns (lookup_dependency (packages pm) dep), pm).
Proof.
  unfold FindToolDependency, PackageManager_Package, lookup_dependency.
  run_pm.
  destruct (Packages_Packages (packages pm) !! ToolPackager dep)
    as [aPackage|]; simpl; [| done].
  unfold packageActions_Tool; simpl.
  destruct (Package_Tools aPackage !! ToolName dep) as [aTool|]; simpl; [| done].
  unfold toolActions_Release, outcome_bind; simpl.
  by destruct (GetRelease aTool (ToolVersion dep)).
Qed.

Lemma requiredTools_range_found dep aRelease dependencies foundTools pm :
  lookup_dependency (packages pm) dep = Some aRelease →
  requiredTools_range (dep :: dependencies) foundTools pm =
    requiredTools_range dependencies
      (<[Tool_String (ToolRelease_Tool aRelease) := aRelease]> foundTools) pm.
Proof.
  intros Hdep. cbn [requiredTools_range]. unfold mbind, PM_bind.
  by rewrite FindToolDependency_lookup, Hdep.
Qed.

Lemma requiredTools_range_not_found dep dependencies foundTools pm :
  lookup_dependency (packages pm) dep = None →
  requiredTools_range (dep :: dependencies) foundTools pm =
    (Returns (inr (ToolReleaseNotFound dep)), pm).
Proof.
  intros Hdep. cbn [requiredTools_range]. unfold mbind, PM_bind.
  by rewrite FindToolDependency_lookup, Hdep.
Qed.

(** The second loop returns the overridden mapping or stops with an
    error; it neither panics nor writes. *)
Lemma requiredTools_range_returns dependencies foundTools pm :
  ∃ found, requiredTools_range dependencies foundTools pm = (Returns found, pm).
Proof.
  revert foundTools.
  induction dependencies as [|dep dependencies IH]; intros foundTools.
  - by eexists.
  - destruct (lookup_dependency (packages pm) dep) as [aRelease|] eqn:Hdep.
    + rewrite (requiredTools_range_found _ _ _ _ _ Hdep). apply IH.
    + rewrite (requiredTools_range_not_found _ _ _ _ Hdep). by eexists.
Qed.

(** The loop stops at the first dependency the registry does not know. *)
Lemma requiredTools_range_first_unknown found dep rest foundTools pm :
  Forall (λ d, is_Some (lookup_dependency (packages pm) d)) found →
  lookup_dependency (packages pm) dep = None →
  requiredTools_range (found ++ dep :: rest) foundTools pm =
    (Returns (inr (ToolReleaseNotFound dep)), pm).
Proof.
  intros Hfound Hdep. revert foundTools.
  induction Hfound as [|d found [aRelease Hd] _ IH]; intros foundTools.
  - by apply requiredTools_range_not_found.
  - rewrite <- app_comm_cons, (requiredTools_range_found _ _ _ _ _ Hd).
    apply IH.
Qed.


(** The first loop stores the entries of the registry one after the
    other, in the order the maps are ranged over. *)
Lemma availableTools_foldl (pkgs : Packages) :
  availableTools pkgs =
    foldl (λ foundTools '(key, rel), <[key := rel]> foundTools) ∅
          (tool_entries (@range _) pkgs).
Proof.
  unfold availableTools, tool_entries.
  generalize (∅ : gmap string ToolRelease).
  induction (range (Packages_Packages pkgs)) as [|[name aPackage] l IH];
    intros foundTools; simpl; [done |].
  rewrite foldl_app, IH. f_equal. clear IH.
  revert foundTools.
  induction (range (Package_Tools aPackage)) as [|[toolName aTool] k IH];
    intros foundTools; simpl; [done |].
  rewrite foldl_app, IH. f_equal.
  by destruct (GetLatestInstalled aTool).
Qed.

Lemma foldl_insert_list_to_map (entries : list (string * ToolRelease)) :
  NoDup entries.*1 →
  foldl (λ foundTools '(key, rel), <[key := rel]> foundTools) ∅ entries =
    (list_to_map entries : gmap string ToolRelease).
Proof.
  induction entries as [|[key rel] entries IH] using rev_ind; intros Hnodup.
  - done.
  - rewrite fmap_app, NoDup_app in Hnodup. destruct Hnodup as (Hl & Hkey & _).
    rewrite foldl_app, IH by done. simpl.
    rewrite list_to_map_snoc; [done |].
    intros Hin. apply (Hkey key Hin). simpl. left.
Qed.

(** Ranging over the maps in another order permutes the entries. *)
Lemma tool_entries_Permutation (pkgs : Packages) :
  tool_entries (@range _) pkgs ≡ₚ availableTools_entries pkgs.
Proof.
  unfold availableTools_entries, tool_entries.
  rewrite (range_perm _ (Packages_Packages pkgs)).
  induction (map_to_list (Packages_Packages pkgs)) as [|[name aPackage] l IH];
    simpl; [done |].
  by rewrite IH, (range_perm _ (Package_Tools aPackage)).
Qed.

(** With distinct keys, the mapping the first loop builds does not depend
    on the order of the iteration. *)
Lemma availableTools_list_to_map (pkgs : Packages) :
  distinct_tool_keys pkgs →
  availableTools pkgs = list_to_map (availableTools_entries pkgs).
Proof.
  intros Hkeys.
  assert (NoDup (tool_entries (@range _) pkgs).*1) as Hnodup.
  { by rewrite tool_entries_Permutation. }
  rewrite availableTools_foldl, foldl_insert_list_to_map by done.
  apply list_to_map_proper; [done | apply tool_entries_Permutation].
Qed.

(** The entries of the registry: the latest installed release of each tool
    of each package, under the key of the tool it points back to. *)
Lemma elem_of_availableTools_entries (pkgs : Packages) key rel :
  (key, rel) ∈ availableTools_entries pkgs ↔
  key = Tool_String (ToolRelease_Tool rel) ∧
  ∃ packager aPackage name aTool,
    Packages_Packages pkgs !! packager = Some aPackage ∧
    Package_Tools aPackage !! name = Some aTool ∧
    GetLatestInstalled aTool = Some rel.
Proof.
  unfold availableTools_entries, tool_entries.
  rewrite list_elem_of_bind. split.
  - intros ([packager aPackage] & Hin & Hp%elem_of_map_to_list).
    apply list_elem_of_bind in Hin
      as ([name aTool] & Hin & Ht%elem_of_map_to_list).
    destruct (GetLatestInstalled aTool) as [rel'|] eqn:Hlatest.
    + apply list_elem_of_singleton in Hin as [= -> ->]. eauto 10.
    + by apply elem_of_nil in Hin.
  - intros (-> & packager & aPackage & name & aTool & Hp & Ht & Hlatest).
    exists (packager, aPackage). split; [| by apply elem_of_map_to_list].
    apply list_elem_of_bind. exists (name, aTool).
    split; [| by apply elem_of_map_to_list].
    rewrite Hlatest. by apply list_elem_of_singleton.
Qed.

(** The key ["packager:toolName"] determines the packager and the tool
    when the packager has no colon. *)
Lemma tool_key_inj (packager1 name1 packager2 name2 : string) :
  gostrings.Count packager1 ":" = 0 →
  gostrings.Count packager2 ":" = 0 →
  packager1 +:+ ":" +:+ name1 = packager2 +:+ ":" +:+ name2 →
  packager1 = packager2 ∧ name1 = name2.
Proof.
  assert (∀ s, "" +:+ s = s) as Hnil by done.
  assert (∀ c s t, String c s +:+ t = String c (s +:+ t)) as Hcons by done.
  revert packager2.
  induction packager1 as [|c p1 IH]; intros [|d p2]; simpl;
    rewrite ?Hnil, ?Hcons, ?Hnil.
  - by intros _ _ [= ->].
  - intros _ Hd [= <- _]. by rewrite Ascii.eqb_refl in Hd.
  - intros Hc _ [= -> _]. by rewrite Ascii.eqb_refl in Hc.
  - destruct (Ascii.eqb c ":") eqn:Hc; [done |].
    destruct (Ascii.eqb d ":") eqn:Hd; [done |]. simpl.
    intros H1 H2 [= -> Heq]. by destruct (IH p2 H1 H2 Heq) as [-> ->].
Qed.

(** In a well-formed registry distinct tools have distinct keys. *)
Lemma well_formed_distinct_tool_keys (pkgs : Packages) :
  well_formed pkgs → distinct_tool_keys pkgs.
Proof.
  intros Hwf.
  assert (∀ key rel1 rel2,
            (key, rel1) ∈ availableTools_entries pkgs →
            (key, rel2) ∈ availableTools_entries pkgs → rel1 = rel2) as Hfun.
  { intros key rel1 rel2.
    rewrite !elem_of_availableTools_entries.
    intros (Hk1 & p1 & pkg1 & n1 & t1 & Hp1 & Ht1 & Hl1)
           (Hk2 & p2 & pkg2 & n2 & t2 & Hp2 & Ht2 & Hl2).
    destruct (Hwf _ _ _ _ _ Hp1 Ht1 Hl1) as [Hr1 Hc1].
    destruct (Hwf _ _ _ _ _ Hp2 Ht2 Hl2) as [Hr2 Hc2].
    rewrite Hk1, Hr1, Hr2 in Hk2. unfold Tool_String in Hk2. simpl in Hk2.
    destruct (tool_key_inj _ _ _ _ Hc1 Hc2 Hk2) as [-> ->].
    congruence. }
  apply NoDup_fmap_fst; [done |].
  unfold availableTools_entries, tool_entries.
  apply NoDup_bind; [| | apply NoDup_map_to_list].
  - intros [p1 pkg1] [p2 pkg2] [key rel]
      Hp1%elem_of_map_to_list Hp2%elem_of_map_to_list Hin1 Hin2.
    apply list_elem_of_bind in Hin1
      as ([n1 t1] & Hin1 & Ht1%elem_of_map_to_list).
    apply list_elem_of_bind in Hin2
      as ([n2 t2] & Hin2 & Ht2%elem_of_map_to_list).
    destruct (GetLatestInstalled t1) as [r1|] eqn:Hl1;
      [| by apply elem_of_nil in Hin1].
    destruct (GetLatestInstalled t2) as [r2|] eqn:Hl2;
      [| by apply elem_of_nil in Hin2].
    apply list_elem_of_singleton in Hin1 as [= -> ->].
    apply list_elem_of_singleton in Hin2 as [= Hkey <-].
    destruct (Hwf _ _ _ _ _ Hp1 Ht1 Hl1) as [Hr1 Hc1].
    destruct (Hwf _ _ _ _ _ Hp2 Ht2 Hl2) as [Hr2 Hc2].
    rewrite Hr1 in Hr2. injection Hr2 as -> ->. congruence.
  - intros [p aPackage] Hp%elem_of_map_to_list.
    apply NoDup_bind; [| | apply NoDup_map_to_list].
    + intros [n1 t1] [n2 t2] [key rel]
        Ht1%elem_of_map_to_list Ht2%elem_of_map_to_list Hin1 Hin2.
      destruct (GetLatestInstalled t1) as [r1|] eqn:Hl1;
        [| by apply elem_of_nil in Hin1].
      destruct (GetLatestInstalled t2) as [r2|] eqn:Hl2;
        [| by apply elem_of_nil in Hin2].
      apply list_elem_of_singleton in Hin1 as [= -> ->].
      apply list_elem_of_singleton in Hin2 as [= Hkey <-].
      destruct (Hwf _ _ _ _ _ Hp Ht1 Hl1) as [Hr1 _].
      destruct (Hwf _ _ _ _ _ Hp Ht2 Hl2) as [Hr2 _].
      rewrite Hr1 in Hr2. injection Hr2 as ->. congruence.
    + intros [n aTool] _.
      destruct (GetLatestInstalled aTool); [apply NoDup_singleton | constructor].
Qed.


(** C6, as the code has it.  When the platform release of the board
    declares a dependency that the registry cannot resolve (its packager,
    its tool or its version is not in the registry), and the dependencies
    declared before it are resolved, [FindToolsRequiredForBoard] fails
    with ToolReleaseNotFound naming that dependency and returns a nil
    slice.  Whether a release is installed plays no part. *)
Theorem FindToolsRequiredForBoard_release_not_found
    (pm : PackageManager) (aBoard : Board) (platform : PlatformReleaseRef)
    (found : list ToolDependency) (toolDep : ToolDependency)
    (rest : list ToolDependency) :
  Board_PlatformRelease aBoard = Some platform →
  PlatformReleaseRef_Dependencies platform = (found ++ toolDep :: rest)%list →
  Forall (λ dep, is_Some (lookup_dependency (packages pm) dep)) found →
  lookup_dependency (packages pm) toolDep = None →
  FindToolsRequiredForBoard aBoard pm =
    (Returns (None, Some (ToolReleaseNotFound toolDep)), pm).
Proof.
  intros Hplatform Hdeps Hfound HtoolDep.
  unfold FindToolsRequiredForBoard. run_pm. rewrite Hplatform, Hdeps.
  by rewrite requiredTools_range_first_unknown.
Qed.


(** A method that writes, for contrast: [Clear] empties the registry. *)
Lemma Clear_state (pm : PackageManager) :
  (Clear pm).2 = {| packages := NewPackages |}.
Proof. done. Qed.

End FindToolsRequiredForBoard_properties.

(** The iteration order is not observable in the set of tools: two ways
    of ranging over the maps give the same releases, in a registry whose
    tools have distinct keys. *)
Lemma FindToolsRequiredForBoard_order `{cores.Methods}
    (R1 R2 : cores.MapRange)
    (pm : packagemanager.PackageManager) (aBoard : cores.Board) :
  packagemanager.distinct_tool_keys (packagemanager.packages pm) →
  match (packagemanager.FindToolsRequiredForBoard (H0 := R1) aBoard pm).1,
        (packagemanager.FindToolsRequiredForBoard (H0 := R2) aBoard pm).1 with
  | packagemanager.Returns (Some tools1, e1),
    packagemanager.Returns (Some tools2, e2) => tools1 ≡ₚ tools2 ∧ e1 = e2
  | r1, r2 => r1 = r2
  end.
Proof.
  intros Hkeys. unfold packagemanager.FindToolsRequiredForBoard.
  unfold mbind, mret, packagemanager.PM_bind, packagemanager.PM_ret,
    packagemanager.load_packages; simpl.
  rewrite !availableTools_list_to_map by done.
  destruct (cores.Board_PlatformRelease aBoard) as [platform|]; [| done].
  destruct (requiredTools_range_returns
              (cores.PlatformReleaseRef_Dependencies platform)
              (list_to_map
                 (packagemanager.availableTools_entries
                    (packagemanager.packages pm))) pm)
    as [[found|e] ->]; simpl; [| done].
  split; [| done].
  by rewrite (cores.range_perm (MapRange := R1)),
    (cores.range_perm (MapRange := R2)).
Qed.

(** *** [FindToolsRequiredForBoard] on the concrete registry *)
Section FindToolsRequiredForBoard_examples.
Import cores packagemanager.
#[local] Existing Instance plain_methods.
#[local] Existing Instance canonical_range.


(** The tools of the registry that have an installed release are
    [avr-gcc], at 4.9.2, and [avrdude]; [bossac] has none. *)
Lemma FindToolsRequiredForBoard_default_tools :
  FindToolsRequiredForBoard (avr_board [] "uno" "arduino") (registry []) =
    (Returns (Some [avr_gcc_4_9_2; avrdude_6_3_0], None), registry []).
Proof. vm_compute. reflexivity. Qed.

(** [FindToolsRequiredForBoard_release_not_found] on the registry: the
    release declares [avrdude 6.3.0], which the registry has, and then
    [avr-gcc 9.9.9], which it has not. *)
Lemma FindToolsRequiredForBoard_release_not_found_witness :
  FindToolsRequiredForBoard
    (avr_board [dependency "avrdude" "6.3.0"; dependency "avr-gcc" "9.9.9"]
               "uno" "arduino")
    (registry [dependency "avrdude" "6.3.0"; dependency "avr-gcc" "9.9.9"]) =
    (Returns (None, Some (ToolReleaseNotFound (dependency "avr-gcc" "9.9.9"))),
     registry [dependency "avrdude" "6.3.0"; dependency "avr-gcc" "9.9.9"]).
Proof.
  apply (FindToolsRequiredForBoard_release_not_found
           (registry [dependency "avrdude" "6.3.0"; dependency "avr-gcc" "9.9.9"])
           (avr_board [dependency "avrdude" "6.3.0"; dependency "avr-gcc" "9.9.9"]
                      "uno" "arduino")
           (PlatformRelease_ref
              (avr_release [dependency "avrdude" "6.3.0";
                            dependency "avr-gcc" "9.9.9"]))
           [dependency "avrdude" "6.3.0"] (dependency "avr-gcc" "9.9.9") []).
  - reflexivity.
  - reflexivity.
  - apply (bool_decide_unpack _). vm_compute. exact I.
  - reflexivity.
Defined.

(** C6, the claim as it is written, fails.  The release of [arduino:avr]
    declares [avr-gcc 5.4.0]; the registry knows that release, and it is
    not installed.  [FindToolsRequiredForBoard] does not fail with
    ToolReleaseNotFound: it returns the release that is not installed
    among the tools. *)
Lemma FindToolsRequiredForBoard_not_installed_dependency :
  let toolDep := dependency "avr-gcc" "5.4.0" in
  let pm := registry [toolDep] in
  let aBoard := avr_board [toolDep] "uno" "arduino" in
  Board_PlatformRelease aBoard = Some (PlatformRelease_ref (avr_release [toolDep])) ∧
  toolDep ∈ PlatformRelease_Dependencies (avr_release [toolDep]) ∧
  lookup_dependency (packages pm) toolDep = Some avr_gcc_5_4_0 ∧
  IsInstalled avr_gcc_5_4_0 = false ∧
  FindToolsRequiredForBoard aBoard pm =
    (Returns (Some [avr_gcc_5_4_0; avrdude_6_3_0], None), pm) ∧
  FindToolsRequiredForBoard aBoard pm ≠
    (Returns (None, Some (ToolReleaseNotFound toolDep)), pm).
Proof.
  assert (FindToolsRequiredForBoard
            (avr_board [dependency "avr-gcc" "5.4.0"] "uno" "arduino")
            (registry [dependency "avr-gcc" "5.4.0"]) =
          (Returns (Some [avr_gcc_5_4_0; avrdude_6_3_0], None),
           registry [dependency "avr-gcc" "5.4.0"])) as Hrun.
  { vm_compute. reflexivity. }
  simpl. split; [reflexivity |]. split; [apply list_elem_of_here |].
  split; [reflexivity |]. split; [reflexivity |]. split; [exact Hrun |].
  rewrite Hrun. discriminate.
Qed.

End FindToolsRequiredForBoard_examples.

(** *** [Builder.Run] *)
Section Builder_Run_properties.
Import builder.
Context `{Collaborators}.

Lemma Run_bind_eq {A B : Type} (m : Run A) (k : A → Run B) (st : State) :
  (m ≫= k) st = k (m st).1 (m st).2.
Proof. unfold mbind, Run_bind. by destruct (m st). Qed.

(** A command that fails ends the loop: the commands after it do not run. *)
Lemma range_commands_fail command commands st st' e :
  run_command command st = (Some e, st') →
  range_commands (command :: commands) st = (Some (WithStack e), st').
Proof.
  unfold run_command. cbn [range_commands]. unfold mbind, Run_bind.
  destruct (PrintRingNameIfDebug command st) as [[] st0].
  by intros ->.
Qed.

(** A command that succeeds is reported, and the loop goes on. *)
Lemma range_commands_step command commands st st' :
  run_command command st = (None, st') →
  range_commands (command :: commands) st =
    range_commands commands (completed st').2.
Proof.
  unfold run_command, completed. cbn [range_commands]. unfold mbind, Run_bind.
  destruct (PrintRingNameIfDebug command st) as [[] st0].
  intros ->.
  destruct (call CompleteStep st') as [[] st1].
  by destruct (call PushProgress st1) as [[] st2].
Qed.

(** The loop runs its commands in order until one fails. *)
Lemma range_commands_executes commands st :
  executes commands st (range_commands commands st).2
           (range_commands commands st).1.
Proof.
  revert st. induction commands as [|command commands IH]; intros st.
  - constructor.
  - destruct (run_command command st) as [[e|] st'] eqn:Hrun.
    + rewrite (range_commands_fail _ _ _ _ _ Hrun). by constructor.
    + rewrite (range_commands_step _ _ _ _ Hrun).
      eapply executes_step; [done | apply IH].
Qed.

(** ... and [executes] describes nothing but the loop. *)
Lemma executes_range_commands commands st st' r :
  executes commands st st' r → range_commands commands st = (r, st').
Proof.
  induction 1 as [st|command commands st st' e Hrun
                 |command commands st st1 st' r Hrun _ IH].
  - done.
  - by apply range_commands_fail.
  - by rewrite (range_commands_step _ _ _ _ Hrun).
Qed.

(** Commands that all succeed, then one that fails: the loop returns the
    error of that one, in the state it left. *)
Lemma range_commands_first_failure before command after st st_k st_k' e :
  range_commands before st = (None, st_k) →
  run_command command st_k = (Some e, st_k') →
  range_commands (before ++ command :: after) st = (Some (WithStack e), st_k').
Proof.
  revert st. induction before as [|c before IH]; intros st Hbefore Hfail.
  - injection Hbefore as <-. by apply range_commands_fail.
  - rewrite <- app_comm_cons.
    destruct (run_command c st) as [[e'|] st1] eqn:Hrun.
    + by rewrite (range_commands_fail _ _ _ _ _ Hrun) in Hbefore.
    + rewrite (range_commands_step _ _ _ _ Hrun) in Hbefore.
      rewrite (range_commands_step _ _ _ _ Hrun). by apply IH.
Qed.

(** [Builder.Run] once the build path exists: the first sequence, the
    snapshot of the compilation database, the second sequence, the
    deferred release of the progress steps; the error of the first
    sequence comes before the error of the second. *)
Lemma Builder_Run_sequences st st0 :
  call MkdirAll st = (None, st0) →
  Builder_Run st =
    (match (range_commands main_commands (announced st0)).1 with
     | Some mainErr => Some mainErr
     | None =>
         (range_commands
            (secondary_commands (range_commands main_commands (announced st0)).1)
            (saved (range_commands main_commands (announced st0)).2)).1
     end,
     released
       (range_commands
          (secondary_commands (range_commands main_commands (announced st0)).1)
          (saved (range_commands main_commands (announced st0)).2)).2).
Proof.
  intros Hmkdir. unfold Builder_Run, announced, saved, released.
  rewrite Run_bind_eq, Hmkdir. cbn [fst snd].
  by rewrite !Run_bind_eq.
Qed.

(** When the build path cannot be created, nothing else is done. *)
Lemma Builder_Run_no_build_path st st0 e :
  call MkdirAll st = (Some e, st0) →
  Builder_Run st = (Some e, st0) ∧ calls st0 = calls st ++ [MkdirAll].
Proof.
  intros Hmkdir. unfold Builder_Run, mbind, Run_bind. rewrite Hmkdir.
  split; [done |].
  unfold call in Hmkdir. destruct (perform MkdirAll (ctx st)).
  by injection Hmkdir as _ <-.
Qed.

(** The calls of a computation, piece by piece. *)
Lemma emits_ret {A : Type} (P : Call → bool) (a : A) : emits P (mret a).
Proof. intros st. exists []. by rewrite app_nil_r. Qed.

Lemma emits_call (P : Call → bool) (c : Call) :
  P c = true → emits P (call c).
Proof.
  intros HP st. exists [c]. unfold call.
  destruct (perform c (ctx st)). split; [done | by constructor].
Qed.

Lemma emits_bind {A B : Type} (P : Call → bool) (m : Run A) (k : A → Run B) :
  emits P m → (∀ a, emits P (k a)) → emits P (m ≫= k).
Proof.
  intros Hm Hk st. rewrite Run_bind_eq.
  destruct (Hm st) as (l1 & Hl1 & HP1).
  destruct (Hk (m st).1 (m st).2) as (l2 & Hl2 & HP2).
  exists (l1 ++ l2). rewrite Hl2, Hl1, app_assoc.
  split; [done | by apply Forall_app].
Qed.

Lemma emits_range_commands (P : Call → bool) (commands : list Command) :
  (∀ c, loop_call c = true → P c = true) →
  Forall (emits P) commands →
  emits P (range_commands commands).
Proof.
  intros Hloop. induction 1 as [|command commands Hcommand _ IH].
  - apply emits_ret.
  - cbn [range_commands]. unfold PrintRingNameIfDebug.
    apply emits_bind; [by apply (emits_call P Debugf), Hloop | intros _].
    apply emits_bind; [done | intros [e|]]; [apply emits_ret |].
    apply emits_bind; [by apply (emits_call P CompleteStep), Hloop | intros _].
    apply emits_bind; [by apply (emits_call P PushProgress), Hloop | intros _].
    done.
Qed.

Ltac emits_calls :=
  repeat first
    [ apply emits_ret
    | match goal with
      | |- emits ?P (call ?c) => apply (emits_call P c); reflexivity
      end
    | apply emits_bind; [| intros ?]
    | match goal with |- emits _ (if ?b then _ else _) => destruct b end ].

Lemma main_commands_emit : emits main_call (range_commands main_commands).
Proof.
  apply emits_range_commands; [by intros [] |].
  unfold main_commands, recipeByPrefixSuffixRunner, containerBuildOptions,
    findIncludes, warnAboutArchIncompatibleLibraries, preprocessSketchCommand,
    logIfVerbose.
  repeat constructor; emits_calls.
Qed.

Lemma secondary_commands_emit mainErr :
  emits secondary_call (range_commands (secondary_commands mainErr)).
Proof.
  apply emits_range_commands; [by intros [] |].
  unfold secondary_commands. repeat constructor; emits_calls.
Qed.

Lemma calls_call (c : Call) (st : State) :
  calls (call c st).2 = calls st ++ [c].
Proof. unfold call. by destruct (perform c (ctx st)). Qed.

Lemma calls_completed (st : State) :
  calls (completed st).2 = calls st ++ [CompleteStep; PushProgress].
Proof.
  unfold completed. rewrite Run_bind_eq. cbv beta.
  etrans; [apply (calls_call PushProgress) |].
  rewrite calls_call. by rewrite <- app_assoc.
Qed.

(** A command that performs one call and returns [nil]. *)
Lemma run_command_report (c : Call) (report : Run (answer error c)) st :
  report = call c →
  run_command (_ ← report; mret None) st =
    (None, (call c (call Debugf st).2).2).
Proof.
  intros ->. unfold run_command, PrintRingNameIfDebug.
  by rewrite !Run_bind_eq.
Qed.

(** A command as the loop runs it: after the message to the debug log. *)
Lemma run_command_call (command : Command) (st : State) :
  run_command command st = command (call Debugf st).2.
Proof. unfold run_command, PrintRingNameIfDebug. by rewrite Run_bind_eq. Qed.

(** The second sequence is its four stages in order: the two reports, then
    the export, whose error ends the sequence, then the size report. *)
Lemma secondary_commands_stages (mainErr : option error) (st : State) :
  range_commands (secondary_commands mainErr) st =
    match (exported (bool_decide (mainErr ≠ None)) st).1 with
    | Some e =>
        (Some (WithStack e), (exported (bool_decide (mainErr ≠ None)) st).2)
    | None =>
        match (sized (bool_decide (mainErr ≠ None)) st).1 with
        | Some e =>
            (Some (WithStack e), (sized (bool_decide (mainErr ≠ None)) st).2)
        | None =>
            (None, (completed (sized (bool_decide (mainErr ≠ None)) st).2).2)
        end
    end.
Proof.
  unfold secondary_commands. set (flag := bool_decide (mainErr ≠ None)).
  rewrite (range_commands_step _ _ _ _
             (run_command_report (PrintUsedAndNotUsedLibraries flag) _ st
                eq_refl)).
  rewrite (range_commands_step _ _ _ _
             (run_command_report PrintUsedLibraries _ _ eq_refl)).
  match goal with
  | |- range_commands _ ?s = _ => change s with (reported flag st)
  end.
  assert (run_command (call (ExportProjectCMake flag)) (reported flag st)
          = exported flag st) as Hexport by apply run_command_call.
  destruct (exported flag st) as [[e|] st3] eqn:Hexp.
  - by rewrite (range_commands_fail _ _ _ _ _ Hexport).
  - rewrite (range_commands_step _ _ _ _ Hexport).
    assert (run_command (call (Size flag)) (completed st3).2
            = sized flag st) as Hsize.
    { unfold sized. rewrite Hexp. apply run_command_call. }
    cbn [fst snd].
    destruct (sized flag st) as [[e|] st4] eqn:Hsz.
    + by rewrite (range_commands_fail _ _ _ _ _ Hsize).
    + by rewrite (range_commands_step _ _ _ _ Hsize).
Qed.

(** The calls made since a state [st], one call more. *)
Lemma calls_call_since (c : Call) (s st : State) (l : list Call) :
  calls s = calls st ++ l → calls (call c s).2 = calls st ++ (l ++ [c]).
Proof. intros Hs. by rewrite calls_call, Hs, <- app_assoc. Qed.

Lemma calls_completed_since (s st : State) (l : list Call) :
  calls s = calls st ++ l →
  calls (completed s).2 = calls st ++ (l ++ [CompleteStep; PushProgress]).
Proof. intros Hs. by rewrite calls_completed, Hs, <- app_assoc. Qed.

(** The calls up to the export, and from there to the size report. *)
Lemma calls_exported (sketchError : bool) (st : State) :
  calls (exported sketchError st).2 =
    calls st ++ [Debugf; PrintUsedAndNotUsedLibraries sketchError;
                 CompleteStep; PushProgress;
                 Debugf; PrintUsedLibraries; CompleteStep; PushProgress;
                 Debugf; ExportProjectCMake sketchError].
Proof.
  pose proof (calls_call_since Debugf st st [] (eq_sym (app_nil_r _))) as H1.
  pose proof (calls_call_since (PrintUsedAndNotUsedLibraries sketchError)
                _ _ _ H1) as H2.
  pose proof (calls_completed_since _ _ _ H2) as H3.
  pose proof (calls_call_since Debugf _ _ _ H3) as H4.
  pose proof (calls_call_since PrintUsedLibraries _ _ _ H4) as H5.
  pose proof (calls_completed_since _ _ _ H5) as H6.
  pose proof (calls_call_since Debugf _ _ _ H6) as H7.
  exact (calls_call_since (ExportProjectCMake sketchError) _ _ _ H7).
Qed.

Lemma calls_sized (sketchError : bool) (st : State) :
  calls (sized sketchError st).2 =
    calls (exported sketchError st).2
      ++ [CompleteStep; PushProgress; Debugf; Size sketchError].
Proof.
  pose proof (calls_completed_since (exported sketchError st).2 _ []
                (eq_sym (app_nil_r _))) as H1.
  pose proof (calls_call_since Debugf _ _ _ H1) as H2.
  exact (calls_call_since (Size sketchError) _ _ _ H2).
Qed.

(** C3. In a run that reaches the first sequence: if its commands
    [before] succeed and the next one, [command], fails with [e], then the
    commands [after] it are skipped (the snapshot is taken in the state
    the failing command left, and every later call is a call of the second
    sequence), the second sequence is executed from there until its own
    first failure, and [Builder.Run] returns [e], wrapped by
    [errors.WithStack], whatever the second sequence returns.  The second
    sequence is run stage by stage, with the flag that says that the first
    sequence failed: the report on the used and unused libraries, the
    print of the used libraries and the export of the CMake project are
    always called; if the export answers an error the sequence ends there
    with that error, wrapped, and the size is not computed; otherwise the
    size is computed, and the sequence ends with its error, wrapped, or
    with [nil].  If the first sequence runs to its end, the second
    sequence is run in the same way with the flag [false], and
    [Builder.Run] returns what it returns: its first error, or [nil]. *)
Theorem Builder_Run_result (st st0 : State) :
  call MkdirAll st = (None, st0) →
  (∀ before command after st_k st_k' e,
     main_commands = before ++ command :: after →
     range_commands before (announced st0) = (None, st_k) →
     run_command command st_k = (Some e, st_k') →
     let reports :=
       [Debugf; PrintUsedAndNotUsedLibraries true; CompleteStep; PushProgress;
        Debugf; PrintUsedLibraries; CompleteStep; PushProgress;
        Debugf; ExportProjectCMake true] in
     let export := exported true (saved st_k') in
     let size := sized true (saved st_k') in
     ∃ st' otherErr secondary_calls,
       executes (secondary_commands (Some (WithStack e))) (saved st_k')
                st' otherErr ∧
       Builder_Run st = (Some (WithStack e), released st') ∧
       calls (released st') =
         calls st_k' ++ [SaveCompilationDatabase] ++ secondary_calls
           ++ [RemoveSubSteps] ∧
       Forall (λ c, secondary_call c = true) secondary_calls ∧
       match export.1 with
       | Some e' =>
           otherErr = Some (WithStack e') ∧ st' = export.2 ∧
           secondary_calls = reports
       | None =>
           match size.1 with
           | Some e' =>
               otherErr = Some (WithStack e') ∧ st' = size.2 ∧
               secondary_calls =
                 reports ++ [CompleteStep; PushProgress; Debugf; Size true]
           | None =>
               otherErr = None ∧ st' = (completed size.2).2 ∧
               secondary_calls =
                 reports ++ [CompleteStep; PushProgress; Debugf; Size true;
                             CompleteStep; PushProgress]
           end
       end) ∧
  (∀ st_end,
     range_commands main_commands (announced st0) = (None, st_end) →
     let reports :=
       [Debugf; PrintUsedAndNotUsedLibraries false; CompleteStep; PushProgress;
        Debugf; PrintUsedLibraries; CompleteStep; PushProgress;
        Debugf; ExportProjectCMake false] in
     let export := exported false (saved st_end) in
     let size := sized false (saved st_end) in
     ∃ st' otherErr secondary_calls,
       executes (secondary_commands None) (saved st_end) st' otherErr ∧
       Builder_Run st = (otherErr, released st') ∧
       calls (released st') =
         calls st_end ++ [SaveCompilationDatabase] ++ secondary_calls
           ++ [RemoveSubSteps] ∧
       match export.1 with
       | Some e' =>
           otherErr = Some (WithStack e') ∧ st' = export.2 ∧
           secondary_calls = reports
       | None =>
           match size.1 with
           | Some e' =>
               otherErr = Some (WithStack e') ∧ st' = size.2 ∧
               secondary_calls =
                 reports ++ [CompleteStep; PushProgress; Debugf; Size false]
           | None =>
               otherErr = None ∧ st' = (completed size.2).2 ∧
               secondary_calls =
                 reports ++ [CompleteStep; PushProgress; Debugf; Size false;
                             CompleteStep; PushProgress]
           end
       end).
Proof.
  intros Hmkdir. rewrite (Builder_Run_sequences _ _ Hmkdir).
  assert (∀ (flag : bool) s,
            calls (released (exported flag s).2) =
              calls s ++ [Debugf; PrintUsedAndNotUsedLibraries flag;
                          CompleteStep; PushProgress;
                          Debugf; PrintUsedLibraries; CompleteStep; PushProgress;
                          Debugf; ExportProjectCMake flag]
                ++ [RemoveSubSteps]) as Hexported.
  { intros flag s. unfold released.
    rewrite calls_call, calls_exported. by rewrite <- !app_assoc. }
  assert (∀ (flag : bool) s,
            calls (released (sized flag s).2) =
              calls s ++ [Debugf; PrintUsedAndNotUsedLibraries flag;
                          CompleteStep; PushProgress;
                          Debugf; PrintUsedLibraries; CompleteStep; PushProgress;
                          Debugf; ExportProjectCMake flag;
                          CompleteStep; PushProgress; Debugf; Size flag]
                ++ [RemoveSubSteps]) as Hsized.
  { intros flag s. unfold released.
    rewrite calls_call, calls_sized, calls_exported.
    by rewrite <- !app_assoc. }
  assert (∀ (flag : bool) s,
            calls (released (completed (sized flag s).2).2) =
              calls s ++ [Debugf; PrintUsedAndNotUsedLibraries flag;
                          CompleteStep; PushProgress;
                          Debugf; PrintUsedLibraries; CompleteStep; PushProgress;
                          Debugf; ExportProjectCMake flag;
                          CompleteStep; PushProgress; Debugf; Size flag;
                          CompleteStep; PushProgress]
                ++ [RemoveSubSteps]) as Hcompleted.
  { intros flag s. unfold released.
    rewrite calls_call, calls_completed, calls_sized, calls_exported.
    by rewrite <- !app_assoc. }
  assert (∀ s, calls (saved s) = calls s ++ [SaveCompilationDatabase])
    as Hsaved by (intros s; apply calls_call).
  split.
  - intros before command after st_k st_k' e -> Hbefore Hfail
      reports export size.
    rewrite (range_commands_first_failure _ _ _ _ _ _ _ Hbefore Hfail).
    cbn [fst snd].
    pose proof (range_commands_executes
                  (secondary_commands (Some (WithStack e))) (saved st_k'))
      as Hexec.
    rewrite (secondary_commands_stages (Some (WithStack e)) (saved st_k'))
      in Hexec |- *.
    change (bool_decide (Some (WithStack e) ≠ None)) with true in Hexec |- *.
    subst export size.
    destruct (exported _ _).1 as [e'|]; [| destruct (sized _ _).1 as [e'|]];
      cbn [fst snd] in Hexec |- *.
    + exists (exported true (saved st_k')).2, (Some (WithStack e')), reports.
      split; [done |]. split; [done |].
      split; [by rewrite Hexported, Hsaved, <- !app_assoc |].
      split; [by repeat constructor | done].
    + exists (sized true (saved st_k')).2, (Some (WithStack e')),
        (reports ++ [CompleteStep; PushProgress; Debugf; Size true]).
      split; [done |]. split; [done |].
      split; [by rewrite Hsized, Hsaved, <- !app_assoc |].
      split; [by repeat constructor | done].
    + exists (completed (sized true (saved st_k')).2).2, None,
        (reports ++ [CompleteStep; PushProgress; Debugf; Size true;
                     CompleteStep; PushProgress]).
      split; [done |]. split; [done |].
      split; [by rewrite Hcompleted, Hsaved, <- !app_assoc |].
      split; [by repeat constructor | done].
  - intros st_end Hmain reports export size. rewrite Hmain. cbn [fst snd].
    pose proof (range_commands_executes (secondary_commands None)
                  (saved st_end)) as Hexec.
    rewrite (secondary_commands_stages None (saved st_end)) in Hexec |- *.
    change (bool_decide (None ≠ None)) with false in Hexec |- *.
    subst export size.
    destruct (exported _ _).1 as [e'|]; [| destruct (sized _ _).1 as [e'|]];
      cbn [fst snd] in Hexec |- *.
    + exists (exported false (saved st_end)).2, (Some (WithStack e')), reports.
      split; [done |]. split; [done |].
      split; [by rewrite Hexported, Hsaved, <- !app_assoc | done].
    + exists (sized false (saved st_end)).2, (Some (WithStack e')),
        (reports ++ [CompleteStep; PushProgress; Debugf; Size false]).
      split; [done |]. split; [done |].
      split; [by rewrite Hsized, Hsaved, <- !app_assoc | done].
    + exists (completed (sized false (saved st_end)).2).2, None,
        (reports ++ [CompleteStep; PushProgress; Debugf; Size false;
                     CompleteStep; PushProgress]).
      split; [done |]. split; [done |].
      split; [by rewrite Hcompleted, Hsaved, <- !app_assoc | done].
Qed.

(** C8, as the code has it.  In a run of [Builder.Run] that gets past the
    creation of the build path, [SaveCompilationDatabase] is called once:
    after the last call of the first sequence, whether that sequence ran
    to its end or stopped at a failing stage, and before the first call of
    the second sequence. *)
Theorem Builder_Run_compilation_database (st st0 : State) :
  call MkdirAll st = (None, st0) →
  ∃ mainErr st1 otherErr st2 main_calls secondary_calls,
    executes main_commands (announced st0) st1 mainErr ∧
    executes (secondary_commands mainErr) (saved st1) st2 otherErr ∧
    (Builder_Run st).2 = released st2 ∧
    calls st1 =
      calls st ++ [MkdirAll; AddSubSteps (length main_commands + 5)]
        ++ main_calls ∧
    calls st2 = calls st1 ++ [SaveCompilationDatabase] ++ secondary_calls ∧
    calls (released st2) = calls st2 ++ [RemoveSubSteps] ∧
    Forall (λ c, main_call c = true) main_calls ∧
    Forall (λ c, secondary_call c = true) secondary_calls.
Proof.
  intros Hmkdir.
  destruct (main_commands_emit (announced st0)) as (main_calls & Hmain & HPmain).
  set (st1 := (range_commands main_commands (announced st0)).2) in *.
  set (mainErr := (range_commands main_commands (announced st0)).1).
  destruct (secondary_commands_emit mainErr (saved st1))
    as (secondary_calls & Hsecondary & HPsecondary).
  set (st2 := (range_commands (secondary_commands mainErr) (saved st1)).2) in *.
  exists mainErr, st1,
    (range_commands (secondary_commands mainErr) (saved st1)).1, st2,
    main_calls, secondary_calls.
  assert (calls st0 = calls st ++ [MkdirAll]) as Hst0.
  { unfold call in Hmkdir. destruct (perform MkdirAll (ctx st)).
    by injection Hmkdir as _ <-. }
  pose proof calls_call as Hcall.
  split; [apply range_commands_executes |].
  split; [apply range_commands_executes |].
  split; [by rewrite (Builder_Run_sequences _ _ Hmkdir) |].
  split.
  { rewrite Hmain. unfold announced. rewrite Hcall, Hst0.
    by rewrite <- !app_assoc. }
  split.
  { rewrite Hsecondary. unfold saved. rewrite Hcall. by rewrite <- !app_assoc. }
  split; [apply Hcall | done].
Qed.

End Builder_Run_properties.

(** *** [Builder.Run] with scripted collaborators *)
Section Builder_Run_examples.
Import builder.

(** [Builder_Run_result] on two runs.  In the first the sketch does not
    compile: [BuildSketch], the eleventh command, fails, and so does
    [Size] in the second sequence.  In the second run every stage of the
    first sequence succeeds and the export of the project fails. *)
Lemma Builder_Run_result_witness :
  (let st0 := scripted_state sketch_fails [MkdirAll] in
   let st_k :=
     (range_commands (H := failing_sketch)
        (take 10 main_commands) (announced st0)).2 in
   let st_k' := (run_command (H := failing_sketch) (call BuildSketch) st_k).2 in
   let reports :=
     [Debugf; PrintUsedAndNotUsedLibraries true; CompleteStep; PushProgress;
      Debugf; PrintUsedLibraries; CompleteStep; PushProgress;
      Debugf; ExportProjectCMake true] in
   let export := exported (H := failing_sketch) true (saved st_k') in
   let size := sized (H := failing_sketch) true (saved st_k') in
   ∃ st' otherErr secondary_calls,
     executes (secondary_commands (H := failing_sketch)
                 (Some (Stack (Failed "exit status 1"))))
              (saved st_k') st' otherErr ∧
     Builder_Run (scripted_state sketch_fails []) =
       (Some (Stack (Failed "exit status 1")), released st') ∧
     calls (released st') =
       calls st_k' ++ [SaveCompilationDatabase] ++ secondary_calls
         ++ [RemoveSubSteps] ∧
     Forall (λ c, secondary_call c = true) secondary_calls ∧
     match export.1 with
     | Some e' =>
         otherErr = Some (Stack e') ∧ st' = export.2 ∧
         secondary_calls = reports
     | None =>
         match size.1 with
         | Some e' =>
             otherErr = Some (Stack e') ∧ st' = size.2 ∧
             secondary_calls =
               reports ++ [CompleteStep; PushProgress; Debugf; Size true]
         | None =>
             otherErr = None ∧ st' = (completed size.2).2 ∧
             secondary_calls =
               reports ++ [CompleteStep; PushProgress; Debugf; Size true;
                           CompleteStep; PushProgress]
         end
     end) ∧
  (let st0 := scripted_state export_fails [MkdirAll] in
   let st_end :=
     (range_commands (H := failing_export) main_commands (announced st0)).2 in
   let reports :=
     [Debugf; PrintUsedAndNotUsedLibraries false; CompleteStep; PushProgress;
      Debugf; PrintUsedLibraries; CompleteStep; PushProgress;
      Debugf; ExportProjectCMake false] in
   let export := exported (H := failing_export) false (saved st_end) in
   let size := sized (H := failing_export) false (saved st_end) in
   ∃ st' otherErr secondary_calls,
     executes (H := failing_export)
              (secondary_commands None) (saved st_end) st' otherErr ∧
     Builder_Run (scripted_state export_fails []) = (otherErr, released st') ∧
     calls (released st') =
       calls st_end ++ [SaveCompilationDatabase] ++ secondary_calls
         ++ [RemoveSubSteps] ∧
     match export.1 with
     | Some e' =>
         otherErr = Some (Stack e') ∧ st' = export.2 ∧
         secondary_calls = reports
     | None =>
         match size.1 with
         | Some e' =>
             otherErr = Some (Stack e') ∧ st' = size.2 ∧
             secondary_calls =
               reports ++ [CompleteStep; PushProgress; Debugf; Size false]
         | None =>
             otherErr = None ∧ st' = (completed size.2).2 ∧
             secondary_calls =
               reports ++ [CompleteStep; PushProgress; Debugf; Size false;
                           CompleteStep; PushProgress]
         end
     end).
Proof.
  split.
  - apply (proj1 (Builder_Run_result (H := failing_sketch)
                    (scripted_state sketch_fails [])
                    (scripted_state sketch_fails [MkdirAll]) eq_refl)
             (take 10 main_commands) (call BuildSketch)
             (drop 11 main_commands)
             (range_commands (take 10 main_commands)
                (announced (scripted_state sketch_fails [MkdirAll]))).2
             (run_command (call BuildSketch)
                (range_commands (take 10 main_commands)
                   (announced (scripted_state sketch_fails [MkdirAll]))).2).2
             (Failed "exit status 1")).
    + reflexivity.
    + vm_compute. reflexivity.
    + vm_compute. reflexivity.
  - apply (proj2 (Builder_Run_result (H := failing_export)
                    (scripted_state export_fails [])
                    (scripted_state export_fails [MkdirAll]) eq_refl)).
    vm_compute. reflexivity.
Defined.

(** The two runs, computed: the error of [BuildSketch] is returned though
    [Size] fails too, and the error of the export is returned when
    nothing else fails. *)
Lemma Builder_Run_scripted :
  (Builder_Run (scripted_state sketch_fails [])).1
    = Some (Stack (Failed "exit status 1")) ∧
  (Builder_Run (scripted_state export_fails [])).1
    = Some (Stack (Failed "cmake: permission denied")).
Proof. split; vm_compute; reflexivity. Qed.

(** The last calls of the two runs: after the failing [BuildSketch] the
    whole second sequence is run, up to [Size], which fails; after a first
    sequence without failure the second sequence stops at the export. *)
Lemma Builder_Run_scripted_calls :
  drop 46 (calls (Builder_Run (scripted_state sketch_fails [])).2) =
    [BuildSketch; SaveCompilationDatabase;
     Debugf; PrintUsedAndNotUsedLibraries true; CompleteStep; PushProgress;
     Debugf; PrintUsedLibraries; CompleteStep; PushProgress;
     Debugf; ExportProjectCMake true; CompleteStep; PushProgress;
     Debugf; Size true; RemoveSubSteps] ∧
  drop 128 (calls (Builder_Run (scripted_state export_fails [])).2) =
    [SaveCompilationDatabase;
     Debugf; PrintUsedAndNotUsedLibraries false; CompleteStep; PushProgress;
     Debugf; PrintUsedLibraries; CompleteStep; PushProgress;
     Debugf; ExportProjectCMake false; RemoveSubSteps].
Proof. split; vm_compute; reflexivity. Qed.

(** [Builder_Run_compilation_database] on the run in which the sketch
    does not compile. *)
Lemma Builder_Run_compilation_database_witness :
  let st := scripted_state sketch_fails [] in
  let st0 := scripted_state sketch_fails [MkdirAll] in
  ∃ mainErr st1 otherErr st2 main_calls secondary_calls,
    executes (H := failing_sketch) main_commands (announced st0) st1 mainErr ∧
    executes (H := failing_sketch)
             (secondary_commands mainErr) (saved st1) st2 otherErr ∧
    (Builder_Run st).2 = released st2 ∧
    calls st1 =
      calls st ++ [MkdirAll; AddSubSteps (length (main_commands
                                                    (H := failing_sketch)) + 5)]
        ++ main_calls ∧
    calls st2 = calls st1 ++ [SaveCompilationDatabase] ++ secondary_calls ∧
    calls (released st2) = calls st2 ++ [RemoveSubSteps] ∧
    Forall (λ c, main_call c = true) main_calls ∧
    Forall (λ c, secondary_call c = true) secondary_calls.
Proof.
  apply (Builder_Run_compilation_database (H := failing_sketch)
           (scripted_state sketch_fails [])
           (scripted_state sketch_fails [MkdirAll])).
  reflexivity.
Defined.

(** C8, the claim as it is written, fails.  When the build path cannot be
    created, [Builder.Run] returns that error at once:
    [SaveCompilationDatabase] is not called in this run. *)
Lemma Builder_Run_without_snapshot :
  Builder_Run (scripted_state mkdir_fails []) =
    (Some (Failed "mkdir: permission denied"),
     scripted_state mkdir_fails [MkdirAll]) ∧
  SaveCompilationDatabase ∉ calls (Builder_Run (scripted_state mkdir_fails [])).2.
Proof.
  split; [reflexivity |].
  apply (bool_decide_unpack _). vm_compute. exact I.
Qed.

End Builder_Run_examples.

(** *** More about [ResolveFQBN] *)
Section ResolveFQBN_more.
Import cores packagemanager.
Context `{Methods} `{MapRange}.

Ltac resolve_cases :=
  unfold ResolveFQBN, mbind, mret, PM_bind, PM_ret, load_packages; simpl;
  repeat case_match; simpl.

(** The values [ResolveFQBN] returns are filled in order: a value is
    returned only together with the ones before it, the build properties
    are there when there is no error, and a build platform release is
    never returned with an error. *)
Theorem ResolveFQBN_partial_results
    (pm : PackageManager) (fqbn : FQBN) (r : Resolution) :
  (ResolveFQBN fqbn pm).1 = Returns r →
  (is_Some (platformRelease r) → is_Some (targetPackage r)) ∧
  (is_Some (board r) → is_Some (platformRelease r)) ∧
  (is_Some (buildProperties r) → is_Some (board r)) ∧
  (err r = None → is_Some (buildProperties r)) ∧
  (is_Some (buildPlatformRelease r) → err r = None).
Proof.
  resolve_cases; intros [= <-]; simpl;
    repeat split; intros; try done; try (by eexists);
    by match goal with H : is_Some None |- _ => destruct H end.
Qed.

(** What [ResolveFQBN] returns is what the registry holds at the place
    the FQBN names: the package under the name of the FQBN, the installed
    release of its platform for the architecture of the FQBN, the board
    under the board id of the FQBN in that release, and the build
    properties of that board for the configuration of the FQBN. *)
Theorem ResolveFQBN_sound
    (pm : PackageManager) (fqbn : FQBN) (r : Resolution) :
  (ResolveFQBN fqbn pm).1 = Returns r →
  (∀ aPackage, targetPackage r = Some aPackage →
     Packages_Packages (packages pm) !! FQBN_Package fqbn = Some aPackage) ∧
  (∀ aPackage release,
     targetPackage r = Some aPackage → platformRelease r = Some release →
     ∃ platform,
       Package_Platforms aPackage !! FQBN_PlatformArch fqbn = Some platform ∧
       GetInstalled platform = Some release) ∧
  (∀ release aBoard,
     platformRelease r = Some release → board r = Some aBoard →
     PlatformRelease_Boards release !! FQBN_BoardID fqbn = Some aBoard) ∧
  (∀ aBoard properties,
     board r = Some aBoard → buildProperties r = Some properties →
     GetBuildProperties aBoard (FQBN_Configs fqbn) = (properties, None)).
Proof.
  resolve_cases; intros [= <-]; simpl;
    repeat split; intros; simplify_eq; eauto.
Qed.

(** The configuration part of an FQBN takes no part in finding the
    package, the platform release and the board. *)
Theorem ResolveFQBN_configs
    (pm : PackageManager) (fqbn1 fqbn2 : FQBN) (r1 r2 : Resolution) :
  FQBN_Package fqbn1 = FQBN_Package fqbn2 →
  FQBN_PlatformArch fqbn1 = FQBN_PlatformArch fqbn2 →
  FQBN_BoardID fqbn1 = FQBN_BoardID fqbn2 →
  (ResolveFQBN fqbn1 pm).1 = Returns r1 →
  (ResolveFQBN fqbn2 pm).1 = Returns r2 →
  targetPackage r1 = targetPackage r2 ∧
  platformRelease r1 = platformRelease r2 ∧
  board r1 = board r2.
Proof.
  intros Hp Ha Hb.
  unfold ResolveFQBN, mbind, mret, PM_bind, PM_ret, load_packages; simpl.
  rewrite Hp, Ha.
  destruct (Packages_Packages (packages pm) !! FQBN_Package fqbn2)
    as [aPackage|]; simpl; [| by intros [= <-] [= <-]].
  destruct (Package_Platforms aPackage !! FQBN_PlatformArch fqbn2)
    as [platform|]; simpl; [| by intros [= <-] [= <-]].
  destruct (GetInstalled platform) as [release|]; simpl;
    [| by intros [= <-] [= <-]].
  rewrite Hb.
  destruct (PlatformRelease_Boards release !! FQBN_BoardID fqbn2)
    as [aBoard|]; simpl; [| by intros [= <-] [= <-]].
  repeat case_match; simpl; by intros [= <-] [= <-].
Qed.

(** A core that is referred to as a core of the package of the board
    itself (the second part of [build.core] is the package of the FQBN)
    is built with the platform release of the board. *)
Theorem ResolveFQBN_core_of_own_package (pm : PackageManager) (fqbn : FQBN)
    aPackage platform release aBoard properties first parts :
  resolves_board pm fqbn aPackage platform release aBoard properties →
  gostrings.Split (default "" (properties !! "build.core")) ":"
    = first :: FQBN_Package fqbn :: parts →
  ResolveFQBN fqbn pm =
    (Returns {| targetPackage := Some aPackage;
                platformRelease := Some release;
                board := Some aBoard;
                buildProperties := Some properties;
                buildPlatformRelease := Some release;
                err := None |}, pm).
Proof.
  intros Hboard Hcore.
  destruct Hboard as (Hp & Hpl & Hi & Hb & Hprops).
  unfold ResolveFQBN, mbind, mret, PM_bind, PM_ret, load_packages; simpl.
  rewrite Hp, Hpl, Hi, Hb, Hprops, Hcore. simpl. by rewrite Hp, Hpl, Hi.
Qed.

End ResolveFQBN_more.

(** *** The lookups of the package manager *)
Section lookups_properties.
Import cores packagemanager.
Context `{Methods} `{MapRange} `{BoardMethods}.

Ltac run_pm :=
  unfold mbind, mret, PM_bind, PM_ret, load_packages; simpl.

(** A loop over a map meets exactly the entries of the map. *)
Lemma elem_of_range {A : Type} (m : gmap string A) (k : string) (x : A) :
  (k, x) ∈ range m ↔ m !! k = Some x.
Proof. by rewrite (range_perm _ m), elem_of_map_to_list. Qed.

Lemma range_empty {A : Type} : range (∅ : gmap string A) = [].
Proof.
  apply Permutation_nil_r. by rewrite (range_perm _ ∅), map_to_list_empty.
Qed.

(** [FindToolDependency] never panics and never writes; it finds a
    release exactly when the registry has the packager of the dependency,
    that package has the tool, and the tool has a release of the version,
    and then returns that release, installed or not. *)
Theorem FindToolDependency_registry (dep : ToolDependency) (pm : PackageManager) :
  ∃ found,
    FindToolDependency dep pm = (Returns found, pm) ∧
    ∀ rel, found = Some rel ↔
      ∃ aPackage aTool,
        Packages_Packages (packages pm) !! ToolPackager dep = Some aPackage ∧
        Package_Tools aPackage !! ToolName dep = Some aTool ∧
        Tool_Releases aTool !! ToolVersion dep = Some rel.
Proof.
  eexists. split; [apply FindToolDependency_lookup |].
  intros rel. unfold lookup_dependency, GetRelease.
  destruct (Packages_Packages (packages pm) !! ToolPackager dep)
    as [aPackage|]; simpl; [| by split; [| intros (? & ? & ? & _)]].
  destruct (Package_Tools aPackage !! ToolName dep) as [aTool|] eqn:Ht; simpl.
  - split; [by eauto |]. intros (? & ? & [= <-] & Ht' & ?). congruence.
  - split; [done |]. intros (? & ? & [= <-] & Ht' & _). congruence.
Qed.

(** The chain [Package(..).Tool(..).Release(..).Get()] reports the first
    link that is missing and nothing after it: an unknown package whatever
    the tool and the version, an unknown tool of a known package whatever
    the version, an unknown version of a known tool; with all three known
    it returns the release and no error.  It never panics. *)
Theorem release_of_first_missing
    (packager name version : string) (pm : PackageManager) :
  release_of packager name version pm =
    (Returns
       match Packages_Packages (packages pm) !! packager with
       | None => (None, Some (PackageNotFound packager))
       | Some aPackage =>
           match Package_Tools aPackage !! name with
           | None => (None, Some (ToolNotFound name (Package_Name aPackage)))
           | Some aTool =>
               match Tool_Releases aTool !! version with
               | None =>
                   (None, Some (ReleaseNotFound version
                                  (Tool_String (Tool_ref aTool))))
               | Some rel => (Some rel, None)
               end
           end
       end, pm).
Proof.
  unfold release_of, PackageManager_Package. run_pm.
  destruct (Packages_Packages (packages pm) !! packager) as [aPackage|];
    simpl; [| done].
  unfold packageActions_Tool; simpl.
  destruct (Package_Tools aPackage !! name) as [aTool|]; simpl; [| done].
  unfold toolActions_Release, GetRelease; simpl.
  by destruct (Tool_Releases aTool !! version).
Qed.


(** [GetAllInstalledToolsReleases] returns the installed releases of the
    tools of the registry and nothing else, and does not write. *)
Theorem GetAllInstalledToolsReleases_spec (pm : PackageManager) (rel : ToolRelease) :
  (GetAllInstalledToolsReleases pm).2 = pm ∧
  (rel ∈ (GetAllInstalledToolsReleases pm).1 ↔
     IsInstalled rel = true ∧
     ∃ aTool, registered_release (packages pm) aTool rel).
Proof.
  split; [done |].
  unfold GetAllInstalledToolsReleases, registered_release. run_pm.
  rewrite list_elem_of_bind. split.
  - intros ([packager aPackage] & Hin & Hp%elem_of_range).
    apply list_elem_of_bind in Hin as ([name aTool] & Hin & Ht%elem_of_range).
    apply list_elem_of_bind in Hin as ([version r] & Hin & Hr%elem_of_range).
    destruct (IsInstalled r) eqn:Hinstalled; [| by apply elem_of_nil in Hin].
    apply list_elem_of_singleton in Hin as ->. eauto 10.
  - intros (Hinstalled & aTool & packager & aPackage & name & version
            & Hp & Ht & Hr).
    exists (packager, aPackage). split; [| by apply elem_of_range].
    apply list_elem_of_bind. exists (name, aTool).
    split; [| by apply elem_of_range].
    apply list_elem_of_bind. exists (version, rel).
    split; [| by apply elem_of_range].
    rewrite Hinstalled. by apply list_elem_of_singleton.
Qed.

(** The boards a predicate selects among the boards of the installed
    releases. *)
Lemma elem_of_installed_boards (p : Board → bool) (pkgs : Packages) (b : Board) :
  b ∈ ('(_, targetPackage) ← range (Packages_Packages pkgs);
       '(_, targetPlatform) ← range (Package_Platforms targetPackage);
       match GetInstalled targetPlatform with
       | Some platform =>
           '(_, board) ← range (PlatformRelease_Boards platform);
           if p board then [board] else []
       | None => []
       end) ↔
  installed_board pkgs b ∧ p b = true.
Proof.
  unfold installed_board. rewrite list_elem_of_bind. split.
  - intros ([packager aPackage] & Hin & Hp%elem_of_range).
    apply list_elem_of_bind in Hin as ([arch platform] & Hin & Ha%elem_of_range).
    destruct (GetInstalled platform) as [installed|] eqn:Hi;
      [| by apply elem_of_nil in Hin].
    apply list_elem_of_bind in Hin as ([boardId b'] & Hin & Hb%elem_of_range).
    destruct (p b') eqn:Hpb; [| by apply elem_of_nil in Hin].
    apply list_elem_of_singleton in Hin as ->. eauto 12.
  - intros ((packager & aPackage & arch & platform & installed & boardId
             & Hp & Ha & Hi & Hb) & Hpb).
    exists (packager, aPackage). split; [| by apply elem_of_range].
    apply list_elem_of_bind. exists (arch, platform).
    split; [| by apply elem_of_range].
    rewrite Hi. apply list_elem_of_bind. exists (boardId, b).
    split; [| by apply elem_of_range].
    rewrite Hpb. by apply list_elem_of_singleton.
Qed.

(** [FindBoardsWithID] returns the boards with the given id of the
    installed releases of the registry: a board of a release that is not
    installed is never returned. *)
Theorem FindBoardsWithID_spec (id : string) (pm : PackageManager) (b : Board) :
  (FindBoardsWithID id pm).2 = pm ∧
  (b ∈ (FindBoardsWithID id pm).1 ↔
     installed_board (packages pm) b ∧ Board_BoardId b = id).
Proof.
  split; [done |]. unfold FindBoardsWithID. run_pm.
  by rewrite (elem_of_installed_boards (λ b, String.eqb (Board_BoardId b) id)),
    String.eqb_eq.
Qed.

(** [FindBoardsWithVidPid] returns the boards of the installed releases
    that declare the USB id. *)
Theorem FindBoardsWithVidPid_spec
    (vid pid : string) (pm : PackageManager) (b : Board) :
  (FindBoardsWithVidPid vid pid pm).2 = pm ∧
  (b ∈ (FindBoardsWithVidPid vid pid pm).1 ↔
     installed_board (packages pm) b ∧ HasUsbID b vid pid = true).
Proof.
  split; [done |]. unfold FindBoardsWithVidPid. run_pm.
  by rewrite (elem_of_installed_boards (λ b, HasUsbID b vid pid)).
Qed.

(** A board [ResolveFQBN] returns is a board of an installed release,
    and a resolution without error returns a board. *)
Lemma ResolveFQBN_board_installed
    (pm : PackageManager) (fqbn : FQBN) (r : Resolution) :
  (ResolveFQBN fqbn pm).1 = Returns r →
  (∀ b, board r = Some b → installed_board (packages pm) b) ∧
  (err r = None → is_Some (board r)).
Proof.
  unfold ResolveFQBN, mbind, mret, PM_bind, PM_ret, load_packages; simpl.
  unfold installed_board.
  repeat case_match; simpl; intros [= <-]; simpl;
    (split; [intros ? [= <-]; eauto 12 | by eauto]).
Qed.

(** A board that [ResolveFQBN] returns is found by [FindBoardsWithID]
    under its own id. *)
Theorem ResolveFQBN_board_found
    (pm : PackageManager) (fqbn : FQBN) (r : Resolution) (b : Board) :
  (ResolveFQBN fqbn pm).1 = Returns r →
  board r = Some b →
  b ∈ (FindBoardsWithID (Board_BoardId b) pm).1.
Proof.
  intros Hr Hb. unfold FindBoardsWithID. run_pm.
  apply (elem_of_installed_boards
           (λ b', String.eqb (Board_BoardId b') (Board_BoardId b))).
  split; [| apply String.eqb_refl].
  by apply (ResolveFQBN_board_installed _ _ _ Hr).
Qed.

(** [FindBoardWithFQBN]: a string that does not parse gives the parsing
    error and no board, without a look at the registry; a board returned
    without error is a board of an installed release. *)
Theorem FindBoardWithFQBN_spec (fqbnIn : string) (pm : PackageManager) :
  (∀ parsed e, ParseFQBN fqbnIn = (parsed, Some e) →
     FindBoardWithFQBN fqbnIn pm = (Returns (None, Some (ParsingFQBN e)), pm)) ∧
  (∀ b, (FindBoardWithFQBN fqbnIn pm).1 = Returns (b, None) →
     ∃ aBoard, b = Some aBoard ∧ installed_board (packages pm) aBoard).
Proof.
  unfold FindBoardWithFQBN. split.
  - intros parsed e ->. by destruct parsed.
  - intros b.
    destruct (ParseFQBN fqbnIn) as [[fqbn|] [e|]]; simpl; try done.
    run_pm.
    destruct (ResolveFQBN fqbn pm) as [[r|] pm'] eqn:Hr; simpl; [| done].
    intros [= <- Herr]. destruct (err r) eqn:He; [done |].
    assert ((ResolveFQBN fqbn pm).1 = Returns r) as Hr' by by rewrite Hr.
    destruct (ResolveFQBN_board_installed _ _ _ Hr') as [Hinstalled Hboard].
    destruct (Hboard He) as [aBoard HaBoard]. eauto.
Qed.

End lookups_properties.

(** *** [FindToolsRequiredForBoard] with explicit dependencies *)
Section FindToolsRequiredForBoard_more.
Import cores packagemanager.
Context `{Methods} `{MapRange}.

Lemma requiredTools_range_all_found dependencies foundTools pm :
  Forall (λ d, is_Some (lookup_dependency (packages pm) d)) dependencies →
  requiredTools_range dependencies foundTools pm =
    (Returns (inl (replaced foundTools (pinned (packages pm) dependencies))),
     pm).
Proof.
  intros Hall. revert foundTools.
  induction Hall as [|d dependencies [rel Hd] _ IH]; intros foundTools.
  - done.
  - rewrite (requiredTools_range_found _ _ _ _ _ Hd), IH.
    unfold replaced, pinned. simpl. by rewrite Hd.
Qed.

(** Either every dependency is found, or there is a first one that is
    not. *)
Lemma dependencies_found_or_not (pkgs : Packages) dependencies :
  Forall (λ d, is_Some (lookup_dependency pkgs d)) dependencies ∨
  ∃ found toolDep rest,
    dependencies = found ++ toolDep :: rest ∧
    Forall (λ d, is_Some (lookup_dependency pkgs d)) found ∧
    lookup_dependency pkgs toolDep = None.
Proof.
  induction dependencies as [|d dependencies IH]; [by left |].
  destruct (lookup_dependency pkgs d) as [rel|] eqn:Hd.
  - destruct IH as [Hall | (found & toolDep & rest & -> & Hfound & Hnone)].
    + left. constructor; [by eexists | done].
    + right. exists (d :: found), toolDep, rest.
      split; [done |]. split; [| done]. constructor; [by eexists | done].
  - right. by exists [], d, dependencies.
Qed.

Lemma replaced_keyed (foundTools : gmap string ToolRelease) rels :
  keyed foundTools → keyed (replaced foundTools rels).
Proof.
  unfold replaced, keyed. revert foundTools.
  induction rels as [|rel rels IH]; intros foundTools Hkeyed; simpl; [done |].
  apply IH. intros key rel' Hlookup.
  destruct (decide (tool_key rel = key)) as [<-|Hne].
  - rewrite lookup_insert_eq in Hlookup. by injection Hlookup as <-.
  - rewrite lookup_insert_ne in Hlookup by done. by apply Hkeyed.
Qed.

Lemma replaced_lookup_other (foundTools : gmap string ToolRelease) rels key :
  Forall (λ rel, tool_key rel ≠ key) rels →
  replaced foundTools rels !! key = foundTools !! key.
Proof.
  intros Hother. unfold replaced. revert foundTools.
  induction Hother as [|rel rels Hne _ IH]; intros foundTools; simpl; [done |].
  by rewrite IH, lookup_insert_ne.
Qed.

Lemma replaced_lookup_last (foundTools : gmap string ToolRelease)
    before rel after :
  Forall (λ rel', tool_key rel' ≠ tool_key rel) after →
  replaced foundTools (before ++ rel :: after) !! tool_key rel = Some rel.
Proof.
  intros Hafter. unfold replaced. rewrite foldl_app. simpl.
  fold (replaced (<[tool_key rel := rel]> (replaced foundTools before)) after).
  by rewrite replaced_lookup_other, lookup_insert_eq.
Qed.

Lemma replaced_lookup_inv (foundTools : gmap string ToolRelease) rels key rel :
  replaced foundTools rels !! key = Some rel →
  rel ∈ rels ∨ foundTools !! key = Some rel.
Proof.
  unfold replaced. revert foundTools.
  induction rels as [|rel' rels IH]; intros foundTools; simpl; [by right |].
  intros [Hin | Hlookup]%IH; [left; by right |].
  destruct (decide (tool_key rel' = key)) as [<-|Hne].
  - rewrite lookup_insert_eq in Hlookup. injection Hlookup as <-. left. left.
  - rewrite lookup_insert_ne in Hlookup by done. by right.
Qed.

(** What the first loop stores is stored under the key of the release,
    and is the latest installed release of a tool of the registry. *)
Lemma availableTools_lookup (pkgs : Packages) key rel :
  availableTools pkgs !! key = Some rel →
  key = tool_key rel ∧
  ∃ packager aPackage name aTool,
    Packages_Packages pkgs !! packager = Some aPackage ∧
    Package_Tools aPackage !! name = Some aTool ∧
    GetLatestInstalled aTool = Some rel.
Proof.
  rewrite availableTools_foldl. intros Hlookup.
  apply elem_of_availableTools_entries.
  rewrite <- tool_entries_Permutation.
  revert Hlookup. generalize (tool_entries (@range _) pkgs). intros entries.
  assert (∀ found : gmap string ToolRelease,
            foldl (λ found '(k, r), <[k := r]> found) found entries !! key
              = Some rel →
            (key, rel) ∈ entries ∨ found !! key = Some rel) as Hinv.
  { induction entries as [|[k r] entries IH]; intros found; simpl;
      [by right |].
    intros [Hin | Hlookup]%IH; [left; by right |].
    destruct (decide (k = key)) as [<-|Hne].
    - rewrite lookup_insert_eq in Hlookup. injection Hlookup as <-.
      left. left.
    - rewrite lookup_insert_ne in Hlookup by done. by right. }
  intros [Hin | Hempty]%Hinv; [done |]. by rewrite lookup_empty in Hempty.
Qed.

Lemma values_of_keyed (foundTools : gmap string ToolRelease) rel :
  keyed foundTools →
  rel ∈ snd <$> range foundTools ↔ foundTools !! tool_key rel = Some rel.
Proof.
  intros Hkeyed. rewrite (range_perm _ foundTools), list_elem_of_fmap. split.
  - intros ([key rel'] & -> & Hin%elem_of_map_to_list). simpl.
    by rewrite <- (Hkeyed _ _ Hin).
  - intros Hlookup. exists (tool_key rel, rel).
    split; [done |]. by apply elem_of_map_to_list.
Qed.

(** The run of [FindToolsRequiredForBoard] when every dependency is
    found. *)
Lemma FindToolsRequiredForBoard_found pm aBoard platform :
  Board_PlatformRelease aBoard = Some platform →
  Forall (λ d, is_Some (lookup_dependency (packages pm) d))
         (PlatformReleaseRef_Dependencies platform) →
  FindToolsRequiredForBoard aBoard pm =
    (Returns
       (Some (snd <$> range
                (replaced (availableTools (packages pm))
                   (pinned (packages pm)
                      (PlatformReleaseRef_Dependencies platform)))),
        None), pm).
Proof.
  intros Hplatform Hall. unfold FindToolsRequiredForBoard.
  unfold mbind, mret, PM_bind, PM_ret, load_packages; simpl.
  by rewrite Hplatform, requiredTools_range_all_found.
Qed.

(** Whatever a successful run returns is of that form. *)
Lemma FindToolsRequiredForBoard_success_inv pm aBoard tools e :
  (FindToolsRequiredForBoard aBoard pm).1 = Returns (Some tools, e) →
  ∃ platform,
    Board_PlatformRelease aBoard = Some platform ∧
    Forall (λ d, is_Some (lookup_dependency (packages pm) d))
           (PlatformReleaseRef_Dependencies platform) ∧
    e = None ∧
    tools = snd <$> range
              (replaced (availableTools (packages pm))
                 (pinned (packages pm)
                    (PlatformReleaseRef_Dependencies platform))).
Proof.
  destruct (Board_PlatformRelease aBoard) as [platform|] eqn:Hplatform.
  - destruct (dependencies_found_or_not (packages pm)
                (PlatformReleaseRef_Dependencies platform))
      as [Hall | (found & toolDep & rest & Hdeps & Hfound & Hnone)].
    + rewrite (FindToolsRequiredForBoard_found _ _ _ Hplatform Hall). simpl.
      intros [= <- <-]. by exists platform.
    + unfold FindToolsRequiredForBoard.
      unfold mbind, mret, PM_bind, PM_ret, load_packages; simpl.
      by rewrite Hplatform, Hdeps, requiredTools_range_first_unknown.
  - unfold FindToolsRequiredForBoard.
    unfold mbind, mret, PM_bind, PM_ret, load_packages; simpl.
    by rewrite Hplatform.
Qed.

Lemma availableTools_keyed (pkgs : Packages) : keyed (availableTools pkgs).
Proof.
  intros key rel Hlookup. by apply availableTools_lookup in Hlookup as [? _].
Qed.

(** [FindToolsRequiredForBoard] is all or nothing: for a board with a
    platform release, either every declared dependency is found in the
    registry and the tools are returned without error, or some dependency
    is not found and the error names the first such one, with a nil
    slice. *)
Theorem FindToolsRequiredForBoard_all_or_nothing
    (pm : PackageManager) (aBoard : Board) (platform : PlatformReleaseRef) :
  Board_PlatformRelease aBoard = Some platform →
  (Forall (λ d, is_Some (lookup_dependency (packages pm) d))
          (PlatformReleaseRef_Dependencies platform) ∧
   ∃ tools,
     FindToolsRequiredForBoard aBoard pm = (Returns (Some tools, None), pm)) ∨
  (∃ found toolDep rest,
     PlatformReleaseRef_Dependencies platform = found ++ toolDep :: rest ∧
     Forall (λ d, is_Some (lookup_dependency (packages pm) d)) found ∧
     lookup_dependency (packages pm) toolDep = None ∧
     FindToolsRequiredForBoard aBoard pm =
       (Returns (None, Some (ToolReleaseNotFound toolDep)), pm)).
Proof.
  intros Hplatform.
  destruct (dependencies_found_or_not (packages pm)
              (PlatformReleaseRef_Dependencies platform))
    as [Hall | (found & toolDep & rest & Hdeps & Hfound & Hnone)].
  - left. split; [done |]. eexists.
    by apply FindToolsRequiredForBoard_found.
  - right. exists found, toolDep, rest. repeat (split; [done |]).
    unfold FindToolsRequiredForBoard.
    unfold mbind, mret, PM_bind, PM_ret, load_packages; simpl.
    by rewrite Hplatform, Hdeps, requiredTools_range_first_unknown.
Qed.

(** The tools [FindToolsRequiredForBoard] returns never hold two releases
    with the same ["packager:toolName"] key, whatever the registry and the
    dependencies. *)
Theorem FindToolsRequiredForBoard_one_per_key
    (pm : PackageManager) (aBoard : Board) (tools : list ToolRelease)
    (e : option error) :
  (FindToolsRequiredForBoard aBoard pm).1 = Returns (Some tools, e) →
  NoDup (tool_key <$> tools).
Proof.
  intros (platform & _ & _ & _ & ->)%FindToolsRequiredForBoard_success_inv.
  set (found := replaced _ _).
  assert (keyed found) as Hkeyed
    by apply replaced_keyed, availableTools_keyed.
  rewrite <- list_fmap_compose.
  replace (tool_key ∘ snd <$> range found) with (range found).*1.
  - rewrite (range_perm _ found). apply NoDup_fst_map_to_list.
  - apply Forall_fmap_ext, Forall_forall. intros [key rel] Hin. simpl.
    apply Hkeyed. apply elem_of_map_to_list. by rewrite <- (range_perm _ found).
Qed.

(** A release the platform pins is among the tools, in the place of any
    other release with its key: when every dependency is found, the
    release of a dependency that no later dependency overrides is
    returned, and it is the only release returned for its key. *)
Theorem FindToolsRequiredForBoard_pinned
    (pm : PackageManager) (aBoard : Board) (platform : PlatformReleaseRef)
    (before : list ToolDependency) (toolDep : ToolDependency)
    (after : list ToolDependency) (rel : ToolRelease) :
  Board_PlatformRelease aBoard = Some platform →
  PlatformReleaseRef_Dependencies platform = before ++ toolDep :: after →
  Forall (λ d, is_Some (lookup_dependency (packages pm) d))
         (before ++ toolDep :: after) →
  lookup_dependency (packages pm) toolDep = Some rel →
  Forall (λ rel', tool_key rel' ≠ tool_key rel) (pinned (packages pm) after) →
  ∃ tools,
    FindToolsRequiredForBoard aBoard pm = (Returns (Some tools, None), pm) ∧
    rel ∈ tools ∧
    ∀ rel', rel' ∈ tools → tool_key rel' = tool_key rel → rel' = rel.
Proof.
  intros Hplatform Hdeps Hall Hrel Hafter.
  rewrite <- Hdeps in Hall.
  eexists. split; [by apply FindToolsRequiredForBoard_found |].
  set (found := replaced _ _).
  assert (keyed found) as Hkeyed
    by apply replaced_keyed, availableTools_keyed.
  assert (found !! tool_key rel = Some rel) as Hlookup.
  { unfold found. rewrite Hdeps. unfold pinned. rewrite omap_app. simpl.
    rewrite Hrel. by apply replaced_lookup_last. }
  split; [by apply values_of_keyed |].
  intros rel' Hin%values_of_keyed Hkey; [| done]. congruence.
Qed.

(** The tools returned are releases the platform pins or latest installed
    releases of tools of the registry, nothing else. *)
Theorem FindToolsRequiredForBoard_nothing_else
    (pm : PackageManager) (aBoard : Board) (tools : list ToolRelease)
    (e : option error) (rel : ToolRelease) :
  (FindToolsRequiredForBoard aBoard pm).1 = Returns (Some tools, e) →
  rel ∈ tools →
  (∃ platform toolDep,
     Board_PlatformRelease aBoard = Some platform ∧
     toolDep ∈ PlatformReleaseRef_Dependencies platform ∧
     lookup_dependency (packages pm) toolDep = Some rel) ∨
  (∃ packager aPackage name aTool,
     Packages_Packages (packages pm) !! packager = Some aPackage ∧
     Package_Tools aPackage !! name = Some aTool ∧
     GetLatestInstalled aTool = Some rel).
Proof.
  intros (platform & Hplatform & _ & _ & ->)%FindToolsRequiredForBoard_success_inv.
  rewrite (range_perm _ (replaced _ _)), list_elem_of_fmap.
  intros ([key rel'] & -> & Hin%elem_of_map_to_list). simpl.
  apply replaced_lookup_inv in Hin as [Hpinned | Hdefault].
  - left. unfold pinned in Hpinned.
    apply list_elem_of_omap in Hpinned as (toolDep & Hdep & Hlookup). eauto.
  - right. by apply availableTools_lookup in Hdefault as [_ ?].
Qed.

(** A default survives when the platform pins nothing for its key: in a
    registry whose tools have distinct keys, with every dependency found,
    the latest installed release of a tool is among the tools returned
    unless a dependency resolves to a release with the same key. *)
Theorem FindToolsRequiredForBoard_default_kept
    (pm : PackageManager) (aBoard : Board) (platform : PlatformReleaseRef)
    packager aPackage name aTool (rel : ToolRelease) :
  Board_PlatformRelease aBoard = Some platform →
  Forall (λ d, is_Some (lookup_dependency (packages pm) d))
         (PlatformReleaseRef_Dependencies platform) →
  distinct_tool_keys (packages pm) →
  Packages_Packages (packages pm) !! packager = Some aPackage →
  Package_Tools aPackage !! name = Some aTool →
  GetLatestInstalled aTool = Some rel →
  Forall (λ rel', tool_key rel' ≠ tool_key rel)
         (pinned (packages pm) (PlatformReleaseRef_Dependencies platform)) →
  ∃ tools,
    FindToolsRequiredForBoard aBoard pm = (Returns (Some tools, None), pm) ∧
    rel ∈ tools.
Proof.
  intros Hplatform Hall Hkeys Hp Ht Hlatest Hother.
  eexists. split; [by apply FindToolsRequiredForBoard_found |].
  apply values_of_keyed; [apply replaced_keyed, availableTools_keyed |].
  rewrite replaced_lookup_other by done.
  rewrite availableTools_list_to_map by done.
  apply elem_of_list_to_map; [done |].
  apply elem_of_availableTools_entries. split; [done |]. eauto 10.
Qed.

End FindToolsRequiredForBoard_more.

(** *** [runCommands], [RunBuilder] and the second sequence *)
Section runCommands_properties.
Import builder.
Context `{Collaborators}.

(** [runCommands] registers its steps first and releases them last,
    whether its commands succeed or one of them fails; what it returns is
    what the loop over the commands returns. *)
Theorem runCommands_registration
    (P : Call → bool) (commands : list Command) (st : State) :
  (∀ c, loop_call c = true → P c = true) →
  Forall (emits P) commands →
  ∃ l,
    calls (runCommands commands st).2 =
      calls st ++ AddSubSteps (length commands) :: l ++ [RemoveSubSteps] ∧
    Forall (λ c, P c = true) l ∧
    (runCommands commands st).1 =
      (range_commands commands (call (AddSubSteps (length commands)) st).2).1.
Proof.
  intros Hloop Hcommands.
  destruct (emits_range_commands P commands Hloop Hcommands
              (call (AddSubSteps (length commands)) st).2) as (l & Hl & HP).
  exists l. split; [| split; [done |]].
  - unfold runCommands. repeat (rewrite Run_bind_eq; cbv beta).
    cbn [fst snd mret Run_ret].
    etrans; [apply (calls_call RemoveSubSteps) |].
    rewrite app_comm_cons, app_assoc. f_equal.
    etrans; [apply Hl |]. rewrite calls_call. by rewrite <- app_assoc.
  - unfold runCommands. by repeat (rewrite Run_bind_eq; cbv beta).
Qed.

(** [RunBuilder] returns [nil] exactly when [Builder.Run] does, and an
    error of [Builder.Run] comes back wrapped once more by
    [errors.WithStack]; [Builder.Run] runs after the registration of the
    one step of [RunBuilder]. *)
Theorem RunBuilder_result (st : State) :
  (RunBuilder st).1 =
    WithStack <$> (Builder_Run (call Debugf (call (AddSubSteps 1) st).2).2).1.
Proof.
  unfold RunBuilder, runCommands. cbn [range_commands length].
  unfold PrintRingNameIfDebug. rewrite !Run_bind_eq.
  destruct (Builder_Run _).1 as [e|]; simpl; [done |].
  by rewrite !Run_bind_eq.
Qed.

(** The second sequence, stage by stage: the two reports on the
    libraries and the export of the project are always called, with the
    flag that tells whether the first sequence failed.  If the export
    answers an error, the sequence returns that error, wrapped, in the
    state the export left: the size is not computed.  If the export
    answers [nil], the size is computed; if it answers an error, the
    sequence returns that error, wrapped; if not, it returns [nil] after
    the report of the completed step. *)
Theorem secondary_commands_run (mainErr : option error) (st : State) :
  let flag := bool_decide (mainErr ≠ None) in
  let reports :=
    [Debugf; PrintUsedAndNotUsedLibraries flag; CompleteStep; PushProgress;
     Debugf; PrintUsedLibraries; CompleteStep; PushProgress;
     Debugf; ExportProjectCMake flag] in
  let run := range_commands (secondary_commands mainErr) st in
  let export := exported flag st in
  let size := sized flag st in
  calls export.2 = calls st ++ reports ∧
  calls size.2 =
    calls st ++ reports ++ [CompleteStep; PushProgress; Debugf; Size flag] ∧
  match export.1 with
  | Some e => run = (Some (WithStack e), export.2)
  | None =>
      match size.1 with
      | Some e => run = (Some (WithStack e), size.2)
      | None =>
          run.1 = None ∧
          calls run.2 =
            calls st ++ reports
              ++ [CompleteStep; PushProgress; Debugf; Size flag;
                  CompleteStep; PushProgress]
      end
  end.
Proof.
  intros flag reports run export size. subst run export size reports.
  split; [apply calls_exported |].
  split; [by rewrite calls_sized, calls_exported, <- app_assoc |].
  rewrite (secondary_commands_stages mainErr st). fold flag.
  destruct (exported flag st).1 as [e|]; [done |].
  destruct (sized flag st).1 as [e|]; [done |].
  split; [done |]. cbn [fst snd].
  by rewrite calls_completed, calls_sized, calls_exported, <- !app_assoc.
Qed.

End runCommands_properties.

(** *** The errors of [Builder.Run], and [Preprocess.Run] *)
Section Preprocess_properties.
Import builder.
Context `{SketchIO}.



Lemma emits_on_context {A : Type} (P : Call → bool)
    (f : Context → A * Context) :
  emits P (on_context f).
Proof.
  intros st. exists []. unfold on_context.
  destruct (f (ctx st)). by rewrite app_nil_r.
Qed.

(** [Preprocess.Run] neither compiles nor links: besides the creation of
    the build path and the registration of its six steps, its stages only
    wipe the build path, run the prebuild hooks, prepare the sketch build
    path, detect the includes, warn about incompatible libraries and
    preprocess the sketch; no call saves the compilation database or
    belongs to the second sequence of [Builder.Run]. *)
Theorem Preprocess_Run_calls (st : State) :
  ∃ l,
    calls (Preprocess_Run st).2 = calls st ++ l ∧
    Forall (λ c, preprocess_call c = true) l.
Proof.
  revert st. fold (emits preprocess_call Preprocess_Run).
  unfold Preprocess_Run.
  apply emits_bind; [by apply (emits_call preprocess_call MkdirAll) |].
  intros [e|]; [apply emits_ret |].
  apply emits_bind.
  - unfold runCommands.
    apply emits_bind;
      [by apply (emits_call preprocess_call (AddSubSteps 6)) | intros _].
    apply emits_bind.
    + apply emits_range_commands; [by intros [] |].
      unfold preprocess_commands, recipeByPrefixSuffixRunner,
        containerBuildOptions, findIncludes,
        warnAboutArchIncompatibleLibraries, preprocessSketchCommand.
      repeat constructor;
        repeat first
          [ apply emits_ret
          | match goal with
            | |- emits ?P (call ?c) => apply (emits_call P c); reflexivity
            end
          | apply emits_bind; [| intros ?] ].
    + intros r. apply emits_bind; [| intros _; apply emits_ret].
      by apply (emits_call preprocess_call RemoveSubSteps).
  - intros [e|]; [apply emits_ret |].
    apply emits_bind; [apply emits_on_context |].
    intros [preprocessedSketch [e|]]; [apply emits_ret |].
    apply emits_bind; [apply emits_on_context | intros _; apply emits_ret].
Qed.

End Preprocess_properties.

(** *** The registry after [Clear] *)
Section Clear_properties.
Import cores packagemanager.
Context `{Methods} `{MapRange} `{BoardMethods}.

(** After [Clear] the registry is empty for every operation: no FQBN
    resolves (UnknownPackage), no board and no installed tool release is
    found, no tool dependency is found, and a board without dependencies
    requires no tool. *)
Theorem registry_after_Clear (pm : PackageManager) :
  (∀ fqbn, (ResolveFQBN fqbn (Clear pm).2).1 =
     Returns {| targetPackage := None; platformRelease := None;
                board := None; buildProperties := None;
                buildPlatformRelease := None;
                err := Some (UnknownPackage (FQBN_Package fqbn)) |}) ∧
  (∀ id, (FindBoardsWithID id (Clear pm).2).1 = []) ∧
  (∀ vid pid, (FindBoardsWithVidPid vid pid (Clear pm).2).1 = []) ∧
  (GetAllInstalledToolsReleases (Clear pm).2).1 = [] ∧
  (∀ dep, (FindToolDependency dep (Clear pm).2).1 = Returns None) ∧
  (∀ aBoard platform,
     Board_PlatformRelease aBoard = Some platform →
     PlatformReleaseRef_Dependencies platform = [] →
     (FindToolsRequiredForBoard aBoard (Clear pm).2).1 =
       Returns (Some [], None)).
Proof.
  assert (@range _ Package ∅ = []) as Hempty by apply range_empty.
  split; [| split; [| split; [| split; [| split]]]].
  - intros fqbn.
    unfold ResolveFQBN, mbind, mret, PM_bind, PM_ret, load_packages; simpl.
    by rewrite lookup_empty.
  - intros id. unfold FindBoardsWithID, mbind, PM_bind, load_packages; simpl.
    by rewrite Hempty.
  - intros vid pid.
    unfold FindBoardsWithVidPid, mbind, PM_bind, load_packages; simpl.
    by rewrite Hempty.
  - unfold GetAllInstalledToolsReleases, mbind, PM_bind, load_packages; simpl.
    by rewrite Hempty.
  - intros dep. by rewrite FindToolDependency_lookup.
  - intros aBoard platform Hplatform Hdeps.
    unfold FindToolsRequiredForBoard, mbind, mret, PM_bind, PM_ret,
      load_packages; simpl.
    rewrite Hplatform, Hdeps. simpl. unfold availableTools. simpl.
    rewrite Hempty. simpl. by rewrite range_empty.
Qed.

End Clear_properties.

(** *** More about [utils.Match] *)
Section Match_more.
Import gostrings utils.
Context `{Text}.

Lemma Match_fst_true (str : string) (substrings : list string) :
  (Match str substrings).1 = true ↔
  cleans str ∧ (Match_range (clean str) substrings).1 = true.
Proof.
  unfold Match, cleans, clean.
  destruct (removeDiatrics (ToLower str)) as [str' [e|]]; simpl.
  - split; [done | by intros [? _]].
  - by split; [| intros [_ ?]].
Qed.

(** Matching a list of substrings is matching each part of it: a string
    matches [substrings1 ++ substrings2] exactly when it matches both
    lists. *)
Theorem Match_app (str : string) (substrings1 substrings2 : list string) :
  (Match str (substrings1 ++ substrings2)).1 = true ↔
  (Match str substrings1).1 = true ∧ (Match str substrings2).1 = true.
Proof.
  rewrite !Match_fst_true, !Match_range_true, Forall_app. tauto.
Qed.

(** The order of the substrings, and their repetition, do not change
    whether a string matches. *)
Theorem Match_same_substrings (str : string) (substrings1 substrings2 : list string) :
  (∀ sub, sub ∈ substrings1 ↔ sub ∈ substrings2) →
  ((Match str substrings1).1 = true ↔ (Match str substrings2).1 = true).
Proof.
  intros Hsame. rewrite !Match_fst_true, !Match_range_true, !Forall_forall.
  by setoid_rewrite Hsame.
Qed.

(** [Match] stops at the first substring that is not found or cannot be
    cleaned: after substrings that are found, a substring that is not
    found gives [(false, nil)] and one that cannot be cleaned gives
    [false] and its error, and the substrings after it are not
    examined. *)
Theorem Match_stops (str : string) (found : list string) (sub : string)
    (rest : list string) :
  cleans str →
  Forall (λ s, cleans s ∧ Contains (clean str) (clean s) = true) found →
  (cleans sub → Contains (clean str) (clean sub) = false →
   Match str (found ++ sub :: rest) = (false, None)) ∧
  (∀ e, removeDiatrics (ToLower sub) = ("", Some e) →
   Match str (found ++ sub :: rest) = (false, Some e)).
Proof.
  intros Hstr Hfound. unfold Match. rewrite (cleans_clean _ Hstr).
  induction Hfound as [|s found [Hs Hin] _ IH]; simpl.
  - split.
    + intros Hsub Hnot. by rewrite (cleans_clean _ Hsub), Hnot.
    + by intros e ->.
  - by rewrite (cleans_clean _ Hs), Hin.
Qed.

Lemma Contains_refl (s : string) : Contains s s = true.
Proof.
  apply Contains_spec. exists "", "". change (s = s +:+ "").
  induction s as [|c s IH]; [done |].
  change (String c s = String c (s +:+ "")). by rewrite <- IH.
Qed.

(** Every string that can be cleaned matches itself, whatever its case
    and its diacritics. *)
Theorem Match_self (str : string) :
  cleans str → Match str [str] = (true, None).
Proof.
  intros Hstr. unfold Match. rewrite (cleans_clean _ Hstr). simpl.
  by rewrite (cleans_clean _ Hstr), Contains_refl.
Qed.

End Match_more.

(** *** The extended properties on the concrete registry *)
Section lookups_examples.
Import cores packagemanager.
#[local] Existing Instance plain_methods.
#[local] Existing Instance canonical_range.
#[local] Existing Instance plain_board_methods.

(** [ResolveFQBN_partial_results] for [arduino:avr:zero]: the release is
    found and has no board [zero]. *)
Lemma ResolveFQBN_partial_results_witness :
  let r := {| targetPackage := Some (arduino_package []);
              platformRelease := Some (avr_release []);
              board := None; buildProperties := None;
              buildPlatformRelease := None;
              err := Some (BoardNotFound (avr_release []) "zero") |} in
  (is_Some (platformRelease r) → is_Some (targetPackage r)) ∧
  (is_Some (board r) → is_Some (platformRelease r)) ∧
  (is_Some (buildProperties r) → is_Some (board r)) ∧
  (err r = None → is_Some (buildProperties r)) ∧
  (is_Some (buildPlatformRelease r) → err r = None).
Proof.
  intros r.
  apply (ResolveFQBN_partial_results (registry [])
           (fqbn "arduino" "avr" "zero") r).
  reflexivity.
Defined.

(** [ResolveFQBN_sound] for [arduino:avr:uno]. *)
Lemma ResolveFQBN_sound_witness :
  let pm := registry [] in
  let fqbn := fqbn "arduino" "avr" "uno" in
  let r := {| targetPackage := Some (arduino_package []);
              platformRelease := Some (avr_release []);
              board := Some (avr_board [] "uno" "arduino");
              buildProperties :=
                Some (Board_Properties (avr_board [] "uno" "arduino"));
              buildPlatformRelease := Some (avr_release []);
              err := None |} in
  (∀ aPackage, targetPackage r = Some aPackage →
     Packages_Packages (packages pm) !! FQBN_Package fqbn = Some aPackage) ∧
  (∀ aPackage release,
     targetPackage r = Some aPackage → platformRelease r = Some release →
     ∃ platform,
       Package_Platforms aPackage !! FQBN_PlatformArch fqbn = Some platform ∧
       GetInstalled platform = Some release) ∧
  (∀ release aBoard,
     platformRelease r = Some release → board r = Some aBoard →
     PlatformRelease_Boards release !! FQBN_BoardID fqbn = Some aBoard) ∧
  (∀ aBoard properties,
     board r = Some aBoard → buildProperties r = Some properties →
     GetBuildProperties aBoard (FQBN_Configs fqbn) = (properties, None)).
Proof.
  intros pm fqbn r. apply (ResolveFQBN_sound pm fqbn r). reflexivity.
Defined.

(** [ResolveFQBN_configs]: [arduino:avr:uno] and the same with the
    configuration [cpu=atmega168], which board [uno] does not have. *)
Lemma ResolveFQBN_configs_witness :
  let uno := avr_board [] "uno" "arduino" in
  let r1 := {| targetPackage := Some (arduino_package []);
               platformRelease := Some (avr_release []);
               board := Some uno;
               buildProperties := Some (Board_Properties uno);
               buildPlatformRelease := Some (avr_release []);
               err := None |} in
  let r2 := {| targetPackage := Some (arduino_package []);
               platformRelease := Some (avr_release []);
               board := Some uno;
               buildProperties := None;
               buildPlatformRelease := None;
               err := Some (InvalidBuildProperties uno "invalid option") |} in
  targetPackage r1 = targetPackage r2 ∧
  platformRelease r1 = platformRelease r2 ∧
  board r1 = board r2.
Proof.
  intros uno r1 r2.
  apply (ResolveFQBN_configs (registry [])
           (fqbn "arduino" "avr" "uno")
           {| FQBN_Package := "arduino"; FQBN_PlatformArch := "avr";
              FQBN_BoardID := "uno";
              FQBN_Configs := {[ "cpu" := "atmega168" ]} |}
           r1 r2).
  - reflexivity.
  - reflexivity.
  - reflexivity.
  - reflexivity.
  - vm_compute. reflexivity.
Defined.

(** [ResolveFQBN_core_of_own_package]: board [phantom] has the core
    [ghost:arduino], whose second part is the package of the board. *)
Lemma ResolveFQBN_core_of_own_package_witness :
  ResolveFQBN (fqbn "arduino" "avr" "phantom") (registry []) =
    (Returns {| targetPackage := Some (arduino_package []);
                platformRelease := Some (avr_release []);
                board := Some (avr_board [] "phantom" "ghost:arduino");
                buildProperties :=
                  Some (Board_Properties
                          (avr_board [] "phantom" "ghost:arduino"));
                buildPlatformRelease := Some (avr_release []);
                err := None |}, registry []).
Proof.
  apply (ResolveFQBN_core_of_own_package (registry [])
           (fqbn "arduino" "avr" "phantom")
           (arduino_package []) (avr_platform []) (avr_release [])
           (avr_board [] "phantom" "ghost:arduino")
           (Board_Properties (avr_board [] "phantom" "ghost:arduino"))
           "ghost" []).
  - unfold resolves_board. split; [| split; [| split; [| split]]]; reflexivity.
  - reflexivity.
Defined.

(** [ResolveFQBN_board_found]: the board [arduino:avr:uno] resolves to is
    found under the id [uno]. *)
Lemma ResolveFQBN_board_found_witness :
  avr_board [] "uno" "arduino" ∈ (FindBoardsWithID "uno" (registry [])).1.
Proof.
  apply (ResolveFQBN_board_found (registry []) (fqbn "arduino" "avr" "uno")
           {| targetPackage := Some (arduino_package []);
              platformRelease := Some (avr_release []);
              board := Some (avr_board [] "uno" "arduino");
              buildProperties :=
                Some (Board_Properties (avr_board [] "uno" "arduino"));
              buildPlatformRelease := Some (avr_release []);
              err := None |}
           (avr_board [] "uno" "arduino")).
  - reflexivity.
  - reflexivity.
Defined.

(** The lookups, computed: the board with the USB id of the Leonardo, and
    a string that is no FQBN. *)
Lemma lookups_computed :
  (FindBoardsWithVidPid "0x2341" "0x8036" usb_registry).1 = [leonardo] ∧
  (FindBoardsWithVidPid "0x2341" "0x0043" usb_registry).1 = [] ∧
  (FindBoardsWithID "leonardo" usb_registry).1 = [leonardo] ∧
  (FindBoardWithFQBN "arduino:avr:leonardo" usb_registry).1 =
    Returns (Some leonardo, None) ∧
  (FindBoardWithFQBN "leonardo" usb_registry).1 =
    Returns (None, Some (ParsingFQBN "invalid fqbn: leonardo")).
Proof. repeat split; vm_compute; reflexivity. Qed.

(** [FindToolsRequiredForBoard_all_or_nothing]: the release declares
    [avrdude 6.3.0], which the registry has, and [avr-gcc 9.9.9], which it
    has not. *)
Lemma FindToolsRequiredForBoard_all_or_nothing_witness :
  let deps := [dependency "avrdude" "6.3.0"; dependency "avr-gcc" "9.9.9"] in
  let pm := registry deps in
  let aBoard := avr_board deps "uno" "arduino" in
  (Forall (λ d, is_Some (lookup_dependency (packages pm) d)) deps ∧
   ∃ tools,
     FindToolsRequiredForBoard aBoard pm = (Returns (Some tools, None), pm)) ∨
  (∃ found toolDep rest,
     deps = found ++ toolDep :: rest ∧
     Forall (λ d, is_Some (lookup_dependency (packages pm) d)) found ∧
     lookup_dependency (packages pm) toolDep = None ∧
     FindToolsRequiredForBoard aBoard pm =
       (Returns (None, Some (ToolReleaseNotFound toolDep)), pm)).
Proof.
  intros deps pm aBoard.
  apply (FindToolsRequiredForBoard_all_or_nothing pm aBoard
           (PlatformRelease_ref (avr_release deps))).
  reflexivity.
Defined.

(** [FindToolsRequiredForBoard_one_per_key]: the tools of board [uno]. *)
Lemma FindToolsRequiredForBoard_one_per_key_witness :
  NoDup (tool_key <$> [avr_gcc_4_9_2; avrdude_6_3_0]).
Proof.
  apply (FindToolsRequiredForBoard_one_per_key (registry [])
           (avr_board [] "uno" "arduino") [avr_gcc_4_9_2; avrdude_6_3_0] None).
  vm_compute. reflexivity.
Defined.

(** [FindToolsRequiredForBoard_pinned]: the release declares
    [avr-gcc 4.9.2], then [avr-gcc 5.4.0], then [avrdude 6.3.0]; the second
    one is returned for [arduino:avr-gcc]. *)
Lemma FindToolsRequiredForBoard_pinned_witness :
  let deps := [dependency "avr-gcc" "4.9.2"; dependency "avr-gcc" "5.4.0";
               dependency "avrdude" "6.3.0"] in
  let pm := registry deps in
  ∃ tools,
    FindToolsRequiredForBoard (avr_board deps "uno" "arduino") pm =
      (Returns (Some tools, None), pm) ∧
    avr_gcc_5_4_0 ∈ tools ∧
    ∀ rel', rel' ∈ tools → tool_key rel' = tool_key avr_gcc_5_4_0 →
            rel' = avr_gcc_5_4_0.
Proof.
  intros deps pm.
  apply (FindToolsRequiredForBoard_pinned pm (avr_board deps "uno" "arduino")
           (PlatformRelease_ref (avr_release deps))
           [dependency "avr-gcc" "4.9.2"] (dependency "avr-gcc" "5.4.0")
           [dependency "avrdude" "6.3.0"] avr_gcc_5_4_0).
  - reflexivity.
  - reflexivity.
  - apply (bool_decide_unpack _). vm_compute. exact I.
  - reflexivity.
  - apply (bool_decide_unpack _). vm_compute. exact I.
Defined.

(** [FindToolsRequiredForBoard_nothing_else]: with [avr-gcc 5.4.0]
    declared, [avrdude 6.3.0] is returned as the latest installed release
    of its tool. *)
Lemma FindToolsRequiredForBoard_nothing_else_witness :
  let deps := [dependency "avr-gcc" "5.4.0"] in
  let pm := registry deps in
  let aBoard := avr_board deps "uno" "arduino" in
  (∃ platform toolDep,
     Board_PlatformRelease aBoard = Some platform ∧
     toolDep ∈ PlatformReleaseRef_Dependencies platform ∧
     lookup_dependency (packages pm) toolDep = Some avrdude_6_3_0) ∨
  (∃ packager aPackage name aTool,
     Packages_Packages (packages pm) !! packager = Some aPackage ∧
     Package_Tools aPackage !! name = Some aTool ∧
     GetLatestInstalled aTool = Some avrdude_6_3_0).
Proof.
  intros deps pm aBoard.
  apply (FindToolsRequiredForBoard_nothing_else pm aBoard
           [avr_gcc_5_4_0; avrdude_6_3_0] None avrdude_6_3_0).
  - vm_compute. reflexivity.
  - apply list_elem_of_further, list_elem_of_here.
Defined.

(** [FindToolsRequiredForBoard_default_kept]: with [avr-gcc 5.4.0]
    declared, the installed [avrdude 6.3.0] is kept. *)
Lemma FindToolsRequiredForBoard_default_kept_witness :
  let deps := [dependency "avr-gcc" "5.4.0"] in
  let pm := registry deps in
  ∃ tools,
    FindToolsRequiredForBoard (avr_board deps "uno" "arduino") pm =
      (Returns (Some tools, None), pm) ∧
    avrdude_6_3_0 ∈ tools.
Proof.
  intros deps pm.
  apply (FindToolsRequiredForBoard_default_kept pm
           (avr_board deps "uno" "arduino")
           (PlatformRelease_ref (avr_release deps))
           "arduino" (arduino_package deps) "avrdude"
           {| Tool_Name := "avrdude"; Tool_Package := "arduino";
              Tool_Releases := {[ "6.3.0" := avrdude_6_3_0 ]} |}
           avrdude_6_3_0).
  - reflexivity.
  - apply (bool_decide_unpack _). vm_compute. exact I.
  - apply (bool_decide_unpack _). vm_compute. exact I.
  - reflexivity.
  - reflexivity.
  - reflexivity.
  - apply (bool_decide_unpack _). vm_compute. exact I.
Defined.

End lookups_examples.

(** [FindToolsRequiredForBoard_order] on the registry, ranged over in the
    canonical order and backwards. *)
Lemma FindToolsRequiredForBoard_order_witness :
  match (packagemanager.FindToolsRequiredForBoard
           (H := packagemanager.plain_methods)
           (H0 := packagemanager.canonical_range)
           (packagemanager.avr_board [] "uno" "arduino")
           (packagemanager.registry [])).1,
        (packagemanager.FindToolsRequiredForBoard
           (H := packagemanager.plain_methods)
           (H0 := packagemanager.reversed_range)
           (packagemanager.avr_board [] "uno" "arduino")
           (packagemanager.registry [])).1 with
  | packagemanager.Returns (Some tools1, e1),
    packagemanager.Returns (Some tools2, e2) => tools1 ≡ₚ tools2 ∧ e1 = e2
  | r1, r2 => r1 = r2
  end.
Proof.
  apply (FindToolsRequiredForBoard_order
           (H := packagemanager.plain_methods)
           packagemanager.canonical_range packagemanager.reversed_range
           (packagemanager.registry [])
           (packagemanager.avr_board [] "uno" "arduino")).
  apply (bool_decide_unpack _). vm_compute. exact I.
Defined.

(** *** The extended properties on scripted runs *)
Section runCommands_examples.
Import builder.

(** [runCommands_registration] on a run of two commands of the first
    sequence, the second of which fails. *)
Lemma runCommands_registration_witness :
  let commands := [containerBuildOptions (H := failing_sketch);
                   call (H := failing_sketch) BuildSketch;
                   call (H := failing_sketch) Link] in
  let st := scripted_state sketch_fails [] in
  ∃ l,
    calls (runCommands commands st).2 =
      calls st ++ AddSubSteps (length commands) :: l ++ [RemoveSubSteps] ∧
    Forall (λ c, main_call c = true) l ∧
    (runCommands commands st).1 =
      (range_commands commands (call (AddSubSteps (length commands)) st).2).1.
Proof.
  intros commands st.
  apply (runCommands_registration (H := failing_sketch) main_call commands st).
  - intros c. destruct c; simpl; intros Hc; try reflexivity; exact Hc.
  - repeat constructor.
    + apply (emits_call main_call WipeBuildPath). reflexivity.
    + apply (emits_call main_call BuildSketch). reflexivity.
    + apply (emits_call main_call Link). reflexivity.
Defined.

(** The run of [runCommands_registration_witness], computed: [Link] is
    not reached. *)
Lemma runCommands_scripted :
  runCommands (H := failing_sketch)
    [containerBuildOptions; call BuildSketch; call Link]
    (scripted_state sketch_fails []) =
    (Some (Stack (Failed "exit status 1")),
     scripted_state sketch_fails
       [AddSubSteps 3; Debugf; WipeBuildPath; CompleteStep; PushProgress;
        Debugf; BuildSketch; RemoveSubSteps]).
Proof. vm_compute. reflexivity. Qed.


(** A preprocessing run, computed: six stages between the registration
    and the release of their steps. *)
Lemma Preprocess_Run_scripted :
  Preprocess_Run (H := failing_sketch) (H0 := scripted_io sketch_fails)
    (scripted_state sketch_fails []) =
    (None,
     scripted_state sketch_fails
       [MkdirAll; AddSubSteps 6;
        Debugf; WipeBuildPath; CompleteStep; PushProgress;
        Debugf; RunRecipe "recipe.hooks.prebuild" ".pattern" false;
        CompleteStep; PushProgress;
        Debugf; PrepareSketchBuildPath; CompleteStep; PushProgress;
        Debugf; FindIncludes; CompleteStep; PushProgress;
        Debugf; WarnAboutArchIncompatibleLibraries; CompleteStep; PushProgress;
        Debugf; PreprocessSketch; CompleteStep; PushProgress;
        RemoveSubSteps]).
Proof. vm_compute. reflexivity. Qed.

End runCommands_examples.

(** *** The extended properties of [utils.Match] on concrete text *)

(** [Match_error] on the strict instance. *)
Lemma Match_error_witness :
  ∃ e, utils.Match (H := utils.strict_text) utils.not_utf8 ["uno"]
       = (false, Some e).
Proof.
  apply (Match_error (H := utils.strict_text) utils.not_utf8 ["uno"]).
  intros Hclean. discriminate Hclean.
Defined.

(** [Match_same_substrings]: a repeated substring and another order. *)
Lemma Match_same_substrings_witness :
  (utils.Match (H := utils.ascii_text) "Arduino Uno" ["uno"; "ardu"; "uno"]).1
    = true ↔
  (utils.Match (H := utils.ascii_text) "Arduino Uno" ["ardu"; "uno"]).1 = true.
Proof.
  apply (Match_same_substrings (H := utils.ascii_text) "Arduino Uno"
           ["uno"; "ardu"; "uno"] ["ardu"; "uno"]).
  intros sub. rewrite !elem_of_cons, !elem_of_nil. tauto.
Defined.

(** [Match_stops]: ["mega"] is not found after ["ardu"] on ASCII text, and
    the strict instance cannot clean the second substring. *)
Lemma Match_stops_witness :
  utils.Match (H := utils.ascii_text) "Arduino Uno" (["ardu"] ++ "mega" :: ["uno"])
    = (false, None) ∧
  utils.Match (H := utils.strict_text) "Arduino Uno"
    (["ardu"] ++ utils.not_utf8 :: ["uno"])
    = (false, Some "invalid UTF-8").
Proof.
  split.
  - refine (proj1 (Match_stops (H := utils.ascii_text) "Arduino Uno"
                     ["ardu"] "mega" ["uno"] _ _) _ _).
    + reflexivity.
    + repeat constructor.
    + reflexivity.
    + reflexivity.
  - refine (proj2 (Match_stops (H := utils.strict_text) "Arduino Uno"
                     ["ardu"] utils.not_utf8 ["uno"] _ _) _ _).
    + reflexivity.
    + repeat constructor.
    + reflexivity.
Defined.

(** [Match_self] on ASCII text. *)
Lemma Match_self_witness :
  utils.Match (H := utils.ascii_text) "Arduino Uno" ["Arduino Uno"]
    = (true, None).
Proof.
  apply (Match_self (H := utils.ascii_text) "Arduino Uno"). reflexivity.
Defined.
